(** * DealFlow: the investment metrics engine

    A shallow embedding of the class [PropertyCalculator], which
    server/routes/properties.js instantiates for every request, and the
    properties of the report it returns.

    JavaScript Numbers are IEEE 754 binary64 values, so the calculator is
    embedded over Rocq's primitive [float]; every operation of the source
    is the operation of the same name on [float].  The request body is a
    finite map from field names to JSON values.  The runtime functions the
    calculator calls ([parseFloat], [parseInt], [toFixed], [||] on Numbers)
    are modelled in module [JS] after ECMA-262; [Math.pow], whose result
    ECMA-262 leaves to the implementation, is a parameter of the engine,
    with a correctly rounded reference for concrete evaluation.

    The arithmetic of the calculator is written once, over an interface
    [Arith], and read both over [float] (the program) and over [Q] (the
    same formulas without rounding).

    The routes that call the calculator and the tools of the MCP server
    that do ([analyze_property], [compare_properties]) are embedded in
    [Routes] and [MCP]; the ranking of [compare_properties] rests on the
    order of binary64, which is developed here from [SpecFloat]. *)

From Stdlib Require Import ZArith QArith Qround Qfield Qpower Floats String Ascii List Bool Lia Lqa DecimalString.
From Stdlib Require Import Sorted.
From stdpp Require Import base option gmap strings.

Set Warnings "-inexact-float".

Local Open Scope string_scope.
Local Open Scope Z_scope.

(** * The ECMAScript runtime, as far as the calculator uses it *)

Module JS.

(** Field values of a parsed JSON body (objects and arrays as field values
    are left out), and [undefined] for a field that is absent. *)
Inductive value : Type :=
| VUndefined
| VNull
| VBoolean (b : bool)
| VNumber (x : float)
| VString (s : string).

(** ToBoolean on a Number: [+0], [-0] and [NaN] are falsy. *)
Definition ToBoolean (x : float) : bool := negb (is_zero x || is_nan x).

(** [a || b] on Numbers. *)
Definition or_else (a b : float) : float := if ToBoolean a then a else b.

(** ** Exact values *)

(** The Number value for the rational [p / q] ([0 <= p]) with sign [neg]:
    round to nearest, ties to even.  The quotient is taken with at least
    56 bits and a sticky bit, then rounded by [binary_normalize]. *)
Definition round_ratio (neg : bool) (p : Z) (q : positive) : float :=
  let k := Z.max 0 (Z.log2 (Zpos q) + 56 - Z.log2 p) in
  let n := p * 2 ^ k in
  let sticky := if n mod Zpos q =? 0 then 0 else 1 in
  SF2Prim (binary_normalize prec emax (cond_Zopp neg (2 * (n / Zpos q) + sticky)) (- k - 1) neg).

(** [s * 10^e] as a Number.  ECMA-262 lets an implementation cut a
    decimal literal after its twentieth significant digit; the value here
    is that of the literal as written. *)
Definition round_decimal (neg : bool) (s e : Z) : float :=
  if 0 <=? e then round_ratio neg (s * 10 ^ e) 1
  else round_ratio neg s (Z.to_pos (10 ^ (- e))).

Fixpoint odd_part (m : positive) (e : Z) : positive * Z :=
  match m with
  | xO m' => odd_part m' (e + 1)
  | _ => (m, e)
  end.

(** A finite nonzero Number is [± m * 2^e] with [m] odd. *)
Definition exact (x : float) : option (bool * positive * Z) :=
  match Prim2SF x with
  | S754_finite s m e => let '(m', e') := odd_part m e in Some (s, m', e')
  | _ => None
  end.

(** [m * 2^e] as a fraction. *)
Definition fraction (m : positive) (e : Z) : Z * positive :=
  if 0 <=? e then (Zpos m * 2 ^ e, 1%positive) else (Zpos m, Z.to_pos (2 ^ (- e))).

(** ** Number::toString, radix 10 *)

(** [10^n <= p / q] *)
Definition pow10_le (n p : Z) (q : positive) : bool :=
  if 0 <=? n then 10 ^ n * Zpos q <=? p else Zpos q <=? p * 10 ^ (- n).

Fixpoint first_above (fuel : nat) (n p : Z) (q : positive) : Z :=
  match fuel with
  | O => n
  | S fuel' => if pow10_le n p q then first_above fuel' (n + 1) p q else n
  end.

(** The [n] with [10^(n-1) <= p / q < 10^n], for [0 < p]: counted up from
    an estimate that the binary logarithms put below it. *)
Definition decimal_point (p : Z) (q : positive) : Z :=
  let l := Z.log2 p - Z.log2 (Zpos q) - 1 in
  first_above 8 (l * 30103 / 100000 - 1) p q.

Definition digits (n : Z) : string := NilZero.string_of_uint (N.to_uint (Z.to_N n)).

Definition zeros (n : Z) : string := string_of_list_ascii (repeat "0"%char (Z.to_nat n)).

(** One step of the digit search: the [k]-digit decimals just below and
    just above [p / q]; of those that read back as [x], the one nearer to
    [p / q], the even one on a tie. *)
Definition candidate (x : float) (p : Z) (q : positive) (n k : Z) : option Z :=
  let e := n - k in
  let lo := if 0 <=? e then p / (Zpos q * 10 ^ e) else p * 10 ^ (- e) / Zpos q in
  let hi := lo + 1 in
  let ok s := (round_decimal false s e =? x)%float in
  let mid := if 0 <=? e then (2 * p ?= (2 * lo + 1) * 10 ^ e * Zpos q)
             else (2 * p * 10 ^ (- e) ?= (2 * lo + 1) * Zpos q) in
  match ok lo, ok hi with
  | true, false => Some lo
  | false, true => Some hi
  | false, false => None
  | true, true =>
      match mid with
      | Lt => Some lo
      | Gt => Some hi
      | Eq => Some (if Z.even lo then lo else hi)
      end
  end.

(** The least number [k] of digits, its digits [s] and the position [n]
    of the decimal point: [x] is the Number value of [s * 10^(n-k)]. *)
Fixpoint shortest (fuel : nat) (x : float) (p : Z) (q : positive) (n k : Z) : Z * Z * Z :=
  match fuel with
  | O => (n, k, 0)
  | S fuel' =>
      match candidate x p q n k with
      | Some s => if s =? 10 ^ k then (n + 1, 1, 1) else (n, k, s)
      | None => shortest fuel' x p q n (k + 1)
      end
  end.

Definition positive_to_string (x : float) (p : Z) (q : positive) : string :=
  let '(n, k, s) := shortest 17 x p q (decimal_point p q) 1 in
  let d := digits s in
  if (k <=? n) && (n <=? 21) then d ++ zeros (n - k)
  else if (0 <? n) && (n <=? 21) then
    substring 0 (Z.to_nat n) d ++ "." ++ substring (Z.to_nat n) (Z.to_nat (k - n)) d
  else if (-6 <? n) && (n <=? 0) then "0." ++ zeros (- n) ++ d
  else
    let e := n - 1 in
    let es := (if e <? 0 then "-" else "+") ++ digits (Z.abs e) in
    if k =? 1 then d ++ "e" ++ es
    else substring 0 1 d ++ "." ++ substring 1 (Z.to_nat (k - 1)) d ++ "e" ++ es.

Definition Number_toString (x : float) : string :=
  if is_nan x then "NaN"
  else if is_zero x then "0"
  else if (x =? infinity)%float then "Infinity"
  else if (x =? neg_infinity)%float then "-Infinity"
  else match exact x with
       | Some (s, m, e) =>
           let '(p, q) := fraction m e in
           (if s then "-" else "") ++ positive_to_string (abs x) p q
       | None => "NaN"
       end.

Definition ToString (v : value) : string :=
  match v with
  | VUndefined => "undefined"
  | VNull => "null"
  | VBoolean true => "true"
  | VBoolean false => "false"
  | VNumber x => Number_toString x
  | VString s => s
  end.

(** ** parseFloat and parseInt *)

(** White space among the code units below 256. *)
Definition is_space (c : ascii) : bool :=
  let n := Z.of_N (N_of_ascii c) in
  ((9 <=? n) && (n <=? 13)) || (n =? 32) || (n =? 160).

Fixpoint trim_start (s : string) : string :=
  match s with
  | String.String c r => if is_space c then trim_start r else s
  | EmptyString => s
  end.

(** The value of [c] as a digit in radix [R], if it is one. *)
Definition digit_value (R : Z) (c : ascii) : option Z :=
  let n := Z.of_N (N_of_ascii c) in
  let d := if (48 <=? n) && (n <=? 57) then n - 48
           else if (97 <=? n) && (n <=? 102) then n - 87
           else if (65 <=? n) && (n <=? 70) then n - 55
           else R in
  if d <? R then Some d else None.

(** The longest prefix of radix-[R] digits: its value on top of [acc],
    its length on top of [len], and the rest of the string. *)
Fixpoint span_digits (R : Z) (s : string) (acc len : Z) : Z * Z * string :=
  match s with
  | String.String c r =>
      match digit_value R c with
      | Some d => span_digits R r (acc * R + d) (len + 1)
      | None => (acc, len, s)
      end
  | EmptyString => (acc, len, s)
  end.

Definition strip_sign (s : string) : bool * string :=
  match s with
  | String.String "-" r => (true, r)
  | String.String "+" r => (false, r)
  | _ => (false, s)
  end.

(** An ExponentPart at the head of [s] gives its value; anything else 0. *)
Definition exponent_part (s : string) : Z :=
  match s with
  | String.String c r =>
      if (c =? "e")%char || (c =? "E")%char then
        let '(neg, r') := strip_sign r in
        let '(e, len, _) := span_digits 10 r' 0 0 in
        if len =? 0 then 0 else cond_Zopp neg e
      else 0
  | EmptyString => 0
  end.

(** parseFloat on a String: the Number value of the longest prefix of the
    trimmed string that is a StrDecimalLiteral, [NaN] if there is none. *)
Definition parseFloat_string (str : string) : float :=
  let '(neg, s) := strip_sign (trim_start str) in
  if String.prefix "Infinity" s then (if neg then neg_infinity else infinity)
  else
    let '(ip, ilen, r1) := span_digits 10 s 0 0 in
    let '(m, flen, r2) :=
      match r1 with
      | String.String "." r => span_digits 10 r ip 0
      | _ => (ip, 0, r1)
      end in
    if ilen + flen =? 0 then nan
    else round_decimal neg m (exponent_part r2 - flen).

Definition parseFloat (v : value) : float := parseFloat_string (ToString v).

(** parseInt on a String, no radix given: radix 16 after [0x], else 10. *)
Definition parseInt_string (str : string) : float :=
  let '(neg, s) := strip_sign (trim_start str) in
  let '(R, s') :=
    match s with
    | String.String "0" (String.String c r) =>
        if (c =? "x")%char || (c =? "X")%char then (16, r) else (10, s)
    | _ => (10, s)
    end in
  let '(n, len, _) := span_digits R s' 0 0 in
  if len =? 0 then nan else round_ratio neg n 1.

Definition parseInt (v : value) : float := parseInt_string (ToString v).

(** ** Number.prototype.toFixed *)

Definition pad_left (n : Z) (s : string) : string :=
  zeros (n - Z.of_nat (String.length s)) ++ s.

(** [toFixed(f)] for [0 <= f <= 100]: the integer [n] nearest to
    [|x| * 10^f], the larger one on a tie, printed with [f] decimals. *)
Definition toFixed (x : float) (f : Z) : string :=
  if negb (is_finite x) || (1e21 <=? abs x)%float then Number_toString x
  else
    let n := match exact x with
             | Some (_, m, e) =>
                 let '(p, q) := fraction m e in
                 (2 * p * 10 ^ f + Zpos q) / (2 * Zpos q)
             | None => 0
             end in
    let m := pad_left (f + 1) (digits n) in
    let k := Z.of_nat (String.length m) in
    let m' := if f =? 0 then m
              else substring 0 (Z.to_nat (k - f)) m ++ "."
                   ++ substring (Z.to_nat (k - f)) (Z.to_nat f) m in
    (if (x <? 0)%float then "-" else "") ++ m'.

(** ** Math.pow *)

(** A finite Number that is a mathematical integer, as that integer. *)
Definition integral (y : float) : option Z :=
  if is_zero y then Some 0
  else match exact y with
       | Some (s, m, e) => if 0 <=? e then Some (cond_Zopp s (Zpos m * 2 ^ e)) else None
       | None => None
       end.

Definition is_odd_integer (y : float) : bool :=
  match integral y with
  | Some z => Z.odd z
  | None => false
  end.

(** Number::exponentiate, with the correctly rounded power where the
    exponent is integral.  For a positive base and a non-integral exponent
    ECMA-262 asks for an approximation that it does not fix; this
    reference does not model it and gives [NaN] there.  The calculator's
    exponent is [parseInt(..) * 12]. *)
Definition pow_integral (base exponent : float) : float :=
  if is_nan exponent then nan
  else if is_zero exponent then 1%float
  else if is_nan base then nan
  else if (base =? infinity)%float then
    if (0 <? exponent)%float then infinity else 0%float
  else if (base =? neg_infinity)%float then
    if (0 <? exponent)%float
    then (if is_odd_integer exponent then neg_infinity else infinity)
    else (if is_odd_integer exponent then (-0)%float else 0%float)
  else if is_zero base then
    if get_sign base then
      if (0 <? exponent)%float
      then (if is_odd_integer exponent then (-0)%float else 0%float)
      else (if is_odd_integer exponent then neg_infinity else infinity)
    else (if (0 <? exponent)%float then 0%float else infinity)
  else if (exponent =? infinity)%float then
    if (1 <? abs base)%float then infinity
    else if (abs base =? 1)%float then nan else 0%float
  else if (exponent =? neg_infinity)%float then
    if (1 <? abs base)%float then 0%float
    else if (abs base =? 1)%float then nan else infinity
  else
    match exact base, integral exponent with
    | Some (s, m, e), Some z =>
        let neg := s && Z.odd z in
        if 0 <? z then
          SF2Prim (binary_normalize prec emax (cond_Zopp neg (Zpos m ^ z)) (e * z) neg)
        else
          let '(p, q) := fraction (m ^ Z.to_pos (- z)) (e * - z) in
          round_ratio neg (Zpos q) (Z.to_pos p)
    | _, _ => nan
    end.

End JS.

(** * The calculator *)

(** The arithmetic the calculator's formulas use: the four operations,
    the integer literals of the source, [Math.pow] and [=== 0]. *)
Class Arith (N : Type) : Type := {
  plus : N -> N -> N;
  minus : N -> N -> N;
  times : N -> N -> N;
  divide : N -> N -> N;
  lit : Z -> N;
  power : N -> N -> N;
  is0 : N -> bool
}.

Declare Scope calc_scope.
Delimit Scope calc_scope with calc.
Infix "+" := plus : calc_scope.
Infix "-" := minus : calc_scope.
Infix "*" := times : calc_scope.
Infix "/" := divide : calc_scope.

(** The object [getMonthlyExpenses] returns. *)
Module Expenses.
Record t (N : Type) : Type := make {
  mortgage : N;
  propertyTax : N;
  insurance : N;
  hoa : N;
  maintenance : N;
  vacancy : N;
  management : N;
  total : N
}.
Arguments make {N}.
Arguments mortgage {N}.
Arguments propertyTax {N}.
Arguments insurance {N}.
Arguments hoa {N}.
Arguments maintenance {N}.
Arguments vacancy {N}.
Arguments management {N}.
Arguments total {N}.
End Expenses.

(** The sections of the report. *)
Module PurchaseInfo.
Record t : Type := make {
  purchasePrice : float;
  downPayment : float;
  downPaymentPercent : float;
  loanAmount : float;
  interestRate : float;
  loanTerm : float
}.
End PurchaseInfo.

Module MonthlyNumbers.
Record t : Type := make {
  rent : float;
  mortgage : float;
  propertyTax : float;
  insurance : float;
  hoa : float;
  maintenance : float;
  vacancy : float;
  management : float;
  totalExpenses : float;
  cashFlow : float
}.
End MonthlyNumbers.

Module AnnualNumbers.
Record t : Type := make {
  rent : float;
  cashFlow : float;
  noi : float
}.
End AnnualNumbers.

Module Metrics.
Record t : Type := make {
  capRate : float;
  cashOnCashReturn : float;
  roi : float
}.
End Metrics.

Module Recommendation.
Record t : Type := make {
  verdict : string;
  reason : string;
  color : string
}.
End Recommendation.

Record FinancialReport : Type := {
  purchaseInfo : PurchaseInfo.t;
  monthlyNumbers : MonthlyNumbers.t;
  annualNumbers : AnnualNumbers.t;
  metrics : Metrics.t;
  recommendation : Recommendation.t
}.

(** A request body: a JSON object with primitive field values.  Reading a
    field that is absent gives [undefined]. *)
Abbreviation object := (gmap string JS.value).

Definition get (o : object) (k : string) : JS.value := default JS.VUndefined (o !! k).

Module PropertyCalculator.

(** The fields of an instance. *)
Record t (N : Type) : Type := make {
  purchasePrice : N;
  downPaymentPercent : N;
  interestRate : N;
  loanTerm : N;
  monthlyRent : N;
  propertyTax : N;
  insurance : N;
  hoaFees : N;
  maintenancePercent : N;
  vacancyPercent : N;
  propertyManagementPercent : N
}.
Arguments make {N}.
Arguments purchasePrice {N}.
Arguments downPaymentPercent {N}.
Arguments interestRate {N}.
Arguments loanTerm {N}.
Arguments monthlyRent {N}.
Arguments propertyTax {N}.
Arguments insurance {N}.
Arguments hoaFees {N}.
Arguments maintenancePercent {N}.
Arguments vacancyPercent {N}.
Arguments propertyManagementPercent {N}.

Section Formulas.
Context {N : Type} `{Arith N}.
Local Open Scope calc_scope.

Definition getDownPayment (this : t N) : N :=
  (purchasePrice this * downPaymentPercent this) / lit 100.

Definition getLoanAmount (this : t N) : N :=
  purchasePrice this - getDownPayment this.

Definition getMonthlyMortgage (this : t N) : N :=
  let loanAmount := getLoanAmount this in
  let monthlyRate := interestRate this / lit 100 / lit 12 in
  let numPayments := loanTerm this * lit 12 in
  if is0 monthlyRate then loanAmount / numPayments
  else
    loanAmount
    * (monthlyRate * power (lit 1 + monthlyRate) numPayments)
    / (power (lit 1 + monthlyRate) numPayments - lit 1).

Definition getMonthlyExpenses (this : t N) : Expenses.t N :=
  let monthlyMortgage := getMonthlyMortgage this in
  let monthlyPropertyTax := propertyTax this / lit 12 in
  let monthlyInsurance := insurance this / lit 12 in
  let monthlyHOA := hoaFees this in
  let monthlyMaintenance := (monthlyRent this * maintenancePercent this) / lit 100 in
  let monthlyVacancy := (monthlyRent this * vacancyPercent this) / lit 100 in
  let monthlyManagement := (monthlyRent this * propertyManagementPercent this) / lit 100 in
  {| Expenses.mortgage := monthlyMortgage;
     Expenses.propertyTax := monthlyPropertyTax;
     Expenses.insurance := monthlyInsurance;
     Expenses.hoa := monthlyHOA;
     Expenses.maintenance := monthlyMaintenance;
     Expenses.vacancy := monthlyVacancy;
     Expenses.management := monthlyManagement;
     Expenses.total :=
       monthlyMortgage
       + monthlyPropertyTax
       + monthlyInsurance
       + monthlyHOA
       + monthlyMaintenance
       + monthlyVacancy
       + monthlyManagement |}.

Definition getMonthlyCashFlow (this : t N) : N :=
  let expenses := getMonthlyExpenses this in
  monthlyRent this - Expenses.total expenses.

Definition getAnnualCashFlow (this : t N) : N :=
  getMonthlyCashFlow this * lit 12.

Definition getNOI (this : t N) : N :=
  let annualRent := monthlyRent this * lit 12 in
  let annualExpenses :=
    propertyTax this
    + insurance this
    + hoaFees this * lit 12
    + (annualRent * maintenancePercent this) / lit 100
    + (annualRent * vacancyPercent this) / lit 100
    + (annualRent * propertyManagementPercent this) / lit 100 in
  annualRent - annualExpenses.

End Formulas.

(** The same instance with another monthly rent. *)
Definition with_monthlyRent {N : Type} (this : t N) (rent : N) : t N :=
  {| purchasePrice := purchasePrice this;
     downPaymentPercent := downPaymentPercent this;
     interestRate := interestRate this;
     loanTerm := loanTerm this;
     monthlyRent := rent;
     propertyTax := propertyTax this;
     insurance := insurance this;
     hoaFees := hoaFees this;
     maintenancePercent := maintenancePercent this;
     vacancyPercent := vacancyPercent this;
     propertyManagementPercent := propertyManagementPercent this |}.

(** The small integers of the source as Numbers. *)
Definition float_lit (z : Z) : float := JS.round_ratio (z <? 0) (Z.abs z) 1.

(** The program: the formulas over binary64, for a host's [Math.pow]. *)
Definition float_arith (Math_pow : float -> float -> float) : Arith float :=
  {| plus := PrimFloat.add;
     minus := PrimFloat.sub;
     times := PrimFloat.mul;
     divide := PrimFloat.div;
     lit := float_lit;
     power := Math_pow;
     is0 := fun x => (x =? 0)%float |}.

(** The power of a rational to an integral rational exponent. *)
Definition pow_exact (x n : Q) : Q := Qpower x (Qfloor n).

(** The formulas without rounding, over the rationals. *)
Definition Q_arith (pow : Q -> Q -> Q) : Arith Q :=
  {| plus := Qplus;
     minus := Qminus;
     times := Qmult;
     divide := Qdiv;
     lit := inject_Z;
     power := pow;
     is0 := fun x => Qeq_bool x 0 |}.

(** [new PropertyCalculator(propertyData)] *)
Definition constructor (propertyData : object) : t float :=
  {| purchasePrice := JS.or_else (JS.parseFloat (get propertyData "purchasePrice")) 0;
     downPaymentPercent := JS.or_else (JS.parseFloat (get propertyData "downPaymentPercent")) 20;
     interestRate := JS.or_else (JS.parseFloat (get propertyData "interestRate")) 7;
     loanTerm := JS.or_else (JS.parseInt (get propertyData "loanTerm")) 30;
     monthlyRent := JS.or_else (JS.parseFloat (get propertyData "monthlyRent")) 0;
     propertyTax := JS.or_else (JS.parseFloat (get propertyData "propertyTax")) 0;
     insurance := JS.or_else (JS.parseFloat (get propertyData "insurance")) 0;
     hoaFees := JS.or_else (JS.parseFloat (get propertyData "hoaFees")) 0;
     maintenancePercent := JS.or_else (JS.parseFloat (get propertyData "maintenancePercent")) 1;
     vacancyPercent := JS.or_else (JS.parseFloat (get propertyData "vacancyPercent")) 5;
     propertyManagementPercent :=
       JS.or_else (JS.parseFloat (get propertyData "propertyManagementPercent")) 10 |}.

Definition getRecommendation (monthlyCashFlow roi : float) : Recommendation.t :=
  if (monthlyCashFlow <? 0)%float then
    {| Recommendation.verdict := "AVOID";
       Recommendation.reason :=
         "Negative cash flow - This property will cost you money every month.";
       Recommendation.color := "red" |}
  else if (monthlyCashFlow <? 100)%float || (roi <? 5)%float then
    {| Recommendation.verdict := "MARGINAL";
       Recommendation.reason :=
         "Low returns - Consider negotiating a better price or finding higher rent.";
       Recommendation.color := "yellow" |}
  else if (10 <=? roi)%float && (200 <=? monthlyCashFlow)%float then
    {| Recommendation.verdict := "EXCELLENT";
       Recommendation.reason :=
         "Strong deal! This meets the 1% rule and provides solid cash flow.";
       Recommendation.color := "green" |}
  else
    {| Recommendation.verdict := "GOOD";
       Recommendation.reason := "Decent investment with positive cash flow.";
       Recommendation.color := "blue" |}.

Section Double.
Variable Math_pow : float -> float -> float.
#[local] Hint Extern 0 (Arith float) => exact (float_arith Math_pow) : typeclass_instances.

Definition getCapRate (this : t float) : string :=
  let noi := getNOI this in
  JS.toFixed ((noi / purchasePrice this) * 100)%float 2.

Definition getCashOnCashReturn (this : t float) : string :=
  let annualCashFlow := getAnnualCashFlow this in
  let totalInvestment := getDownPayment this in
  JS.toFixed ((annualCashFlow / totalInvestment) * 100)%float 2.

Definition getROI (this : t float) : string :=
  let annualCashFlow := getAnnualCashFlow this in
  let totalInvestment := getDownPayment this in
  JS.toFixed ((annualCashFlow / totalInvestment) * 100)%float 2.

Definition getFullAnalysis (this : t float) : FinancialReport :=
  let expenses := getMonthlyExpenses this in
  let monthlyCashFlow := getMonthlyCashFlow this in
  let annualCashFlow := getAnnualCashFlow this in
  {| purchaseInfo :=
       {| PurchaseInfo.purchasePrice := purchasePrice this;
          PurchaseInfo.downPayment := getDownPayment this;
          PurchaseInfo.downPaymentPercent := downPaymentPercent this;
          PurchaseInfo.loanAmount := getLoanAmount this;
          PurchaseInfo.interestRate := interestRate this;
          PurchaseInfo.loanTerm := loanTerm this |};
     monthlyNumbers :=
       {| MonthlyNumbers.rent := monthlyRent this;
          MonthlyNumbers.mortgage := Expenses.mortgage expenses;
          MonthlyNumbers.propertyTax := Expenses.propertyTax expenses;
          MonthlyNumbers.insurance := Expenses.insurance expenses;
          MonthlyNumbers.hoa := Expenses.hoa expenses;
          MonthlyNumbers.maintenance := Expenses.maintenance expenses;
          MonthlyNumbers.vacancy := Expenses.vacancy expenses;
          MonthlyNumbers.management := Expenses.management expenses;
          MonthlyNumbers.totalExpenses := Expenses.total expenses;
          MonthlyNumbers.cashFlow := monthlyCashFlow |};
     annualNumbers :=
       {| AnnualNumbers.rent := (monthlyRent this * 12)%float;
          AnnualNumbers.cashFlow := annualCashFlow;
          AnnualNumbers.noi := getNOI this |};
     metrics :=
       {| Metrics.capRate := JS.parseFloat_string (getCapRate this);
          Metrics.cashOnCashReturn := JS.parseFloat_string (getCashOnCashReturn this);
          Metrics.roi := JS.parseFloat_string (getROI this) |};
     recommendation :=
       getRecommendation monthlyCashFlow (JS.parseFloat_string (getROI this)) |}.

(** The formula the specification gives for cash-on-cash return: annual
    cash flow over down payment, times 100, to two decimals. *)
Definition cashOnCash_formula (this : t float) : string :=
  JS.toFixed (getAnnualCashFlow this / getDownPayment this * 100)%float 2.

(** The route handler's two lines: construct, then analyse. *)
Definition analyze (propertyData : object) : FinancialReport :=
  getFullAnalysis (constructor propertyData).

(** The report's monthly cash flow for a request body. *)
Definition cashFlow_of (propertyData : object) : float :=
  MonthlyNumbers.cashFlow (monthlyNumbers (analyze propertyData)).

(** Monotonicity in the rent as the specification states it: of two
    bodies that differ only in monthlyRent, the one with the larger rent
    has the strictly larger monthly cash flow. *)
Definition rent_strictly_increases_cashFlow : Prop :=
  forall (propertyData : object) (r1 r2 : float),
    (r1 <? r2)%float = true ->
    (cashFlow_of (<["monthlyRent" := JS.VNumber r1]> propertyData)
     <? cashFlow_of (<["monthlyRent" := JS.VNumber r2]> propertyData))%float = true.

End Double.

End PropertyCalculator.

(** * The routes of server/routes/properties.js *)

Module Routes.

(** ToBoolean on a field value. *)
Definition truthy (v : JS.value) : bool :=
  match v with
  | JS.VUndefined | JS.VNull => false
  | JS.VBoolean b => b
  | JS.VNumber x => JS.ToBoolean x
  | JS.VString s => negb (String.eqb s "")
  end.

(** [a || b] on field values. *)
Definition or_value (a b : JS.value) : JS.value := if truthy a then a else b.

(** The statement of POST /save. *)
Definition insert_property : string :=
  "INSERT INTO properties (
        user_id, address, city, state, zip_code,
        purchase_price, down_payment_percent, interest_rate, loan_term,
        monthly_rent, property_tax, insurance, hoa_fees,
        maintenance_percent, vacancy_percent, property_management_percent,
        cash_flow, roi, cap_rate, cash_on_cash_return
      ) VALUES (?, ?, ?, ?, ?, ?, ?, ?, ?, ?, ?, ?, ?, ?, ?, ?, ?, ?, ?, ?)".

Fixpoint placeholders (sql : string) : nat :=
  match sql with
  | String.String c r => (if Ascii.eqb c "?" then 1 else 0) + placeholders r
  | EmptyString => 0
  end%nat.

Section Double.
Variable Math_pow : float -> float -> float.

(** POST /save up to the database call: the values bound to the
    statement, for the authenticated user's id and the request body. *)
Definition save_parameters (userId : JS.value) (body : object) : list JS.value :=
  let address := get body "address" in
  let city := get body "city" in
  let state := get body "state" in
  let zipCode := get body "zipCode" in
  let propertyData :=
    delete "zipCode" (delete "state" (delete "city" (delete "address" body))) in
  let calculator := PropertyCalculator.constructor propertyData in
  let analysis := PropertyCalculator.getFullAnalysis Math_pow calculator in
  [ userId;
    address;
    city;
    state;
    zipCode;
    get propertyData "purchasePrice";
    or_value (get propertyData "downPaymentPercent") (JS.VNumber 20);
    or_value (get propertyData "interestRate") (JS.VNumber 7);
    or_value (get propertyData "loanTerm") (JS.VNumber 30);
    get propertyData "monthlyRent";
    or_value (get propertyData "propertyTax") (JS.VNumber 0);
    or_value (get propertyData "insurance") (JS.VNumber 0);
    or_value (get propertyData "hoaFees") (JS.VNumber 0);
    or_value (get propertyData "maintenancePercent") (JS.VNumber 1);
    or_value (get propertyData "vacancyPercent") (JS.VNumber 5);
    or_value (get propertyData "propertyManagementPercent") (JS.VNumber 10);
    JS.VNumber (MonthlyNumbers.cashFlow (monthlyNumbers analysis));
    JS.VNumber (Metrics.roi (metrics analysis));
    JS.VNumber (Metrics.capRate (metrics analysis));
    JS.VNumber (Metrics.cashOnCashReturn (metrics analysis)) ].

End Double.

End Routes.

(** * The host's Array.prototype.sort *)

(** ECMA-262 asks of [Array.prototype.sort] that the result be a
    permutation of the array in the order of the comparator, elements that
    compare equal staying in their original order.  When the comparator is
    consistent on the elements this fixes the result, and the stable
    insertion sort below computes it.  When it is not, ECMA-262 leaves the
    order to the implementation; the theorems on the order are stated for
    consistent comparators only. *)
Module ArrayPrototype.

Section Sort.
Context {A : Type}.
Variable comparefn : A -> A -> float.

(** The comparison the sort makes (CompareArrayElements): the comparator's
    result, a NaN read as +0. *)
Definition SortCompare (x y : A) : float :=
  let v := comparefn x y in
  if is_nan v then 0%float else v.

(** [x], which stood before all of [sorted], goes behind the elements it
    is to follow and before the first one it is not. *)
Fixpoint insert (x : A) (sorted : list A) : list A :=
  match sorted with
  | [] => [x]
  | y :: rest =>
      if (0 <? SortCompare x y)%float then y :: insert x rest else x :: sorted
  end.

Definition sort (items : list A) : list A := foldr insert [] items.

(** The relations ECMA-262 writes [a <C b], [a =C b] and [a >C b]. *)
Definition before (a b : A) : Prop := (SortCompare a b <? 0)%float = true.
Definition tied (a b : A) : Prop := (SortCompare a b =? 0)%float = true.
Definition after (a b : A) : Prop := (0 <? SortCompare a b)%float = true.

(** What ECMA-262 asks of a consistent comparator, at three values. *)
Definition consistent_at (a b c : A) : Prop :=
  tied a a
  /\ (tied a b -> tied b a)
  /\ (tied a b -> tied b c -> tied a c)
  /\ (before a b -> before b c -> before a c)
  /\ (after a b -> after b c -> after a c).

End Sort.

End ArrayPrototype.

(** * The tools of the MCP server *)

Module MCP.

(** A destructured parameter with a default: the default stands in for
    [undefined] only. *)
Definition with_default (params : object) (k : string) (dflt : JS.value) : JS.value :=
  match get params k with
  | JS.VUndefined => dflt
  | v => v
  end.

(** The object [analyzeProperty] builds for the calculator. *)
Definition calculator_input (params : object) : object :=
  list_to_map
    [ ("purchasePrice", get params "purchasePrice");
      ("downPaymentPercent", with_default params "downPaymentPercent" (JS.VNumber 20));
      ("interestRate", with_default params "interestRate" (JS.VNumber 7));
      ("loanTerm", with_default params "loanTerm" (JS.VNumber 30));
      ("monthlyRent", get params "monthlyRent");
      ("propertyTax", with_default params "propertyTax" (JS.VNumber 0));
      ("insurance", with_default params "insurance" (JS.VNumber 0));
      ("hoaFees", with_default params "hoaFees" (JS.VNumber 0));
      ("maintenancePercent", with_default params "maintenancePercent" (JS.VNumber 1));
      ("vacancyPercent", with_default params "vacancyPercent" (JS.VNumber 5));
      ("propertyManagementPercent",
       with_default params "propertyManagementPercent" (JS.VNumber 10)) ].

Section Double.
Variable Math_pow : float -> float -> float.

(** [financialMetrics] of the result of [analyzeProperty]. *)
Definition financialMetrics (params : object) : FinancialReport :=
  PropertyCalculator.getFullAnalysis Math_pow
    (PropertyCalculator.constructor (calculator_input params)).

End Double.

(** One element of [comparisons]: a property and its report. *)
Module Comparison.
Record t : Type := make {
  property : object;
  analysis : FinancialReport
}.
End Comparison.

(** One line of [ranking]. *)
Module Ranking.
Record t : Type := make {
  rank : Z;
  address : JS.value;
  roi : float;
  cashFlow : float
}.
End Ranking.

(** What [compareProperties] returns beside [success: true]. *)
Module Compared.
Record t : Type := make {
  comparisons : list Comparison.t;
  bestDeal : option Comparison.t;
  ranking : list Ranking.t
}.
End Compared.

(** [c.analysis.metrics.roi]. *)
Definition roi_of (c : Comparison.t) : float :=
  Metrics.roi (metrics (Comparison.analysis c)).

(** The comparator of the ranking,
    [(a, b) => b.analysis.metrics.roi - a.analysis.metrics.roi]. *)
Definition by_roi (a b : Comparison.t) : float := (roi_of b - roi_of a)%float.

Section Compare.
Variable Math_pow : float -> float -> float.

(** The callback of [properties.map]. *)
Definition compare_one (prop : object) : Comparison.t :=
  let calculator := PropertyCalculator.constructor prop in
  let analysis := PropertyCalculator.getFullAnalysis Math_pow calculator in
  {| Comparison.property := prop; Comparison.analysis := analysis |}.

(** [compareProperties] for an array of property objects; [bestDeal], the
    element at index 0, is [undefined] for an empty array. *)
Definition compareProperties (properties : list object) : Compared.t :=
  let comparisons := ArrayPrototype.sort by_roi (map compare_one properties) in
  {| Compared.comparisons := comparisons;
     Compared.bestDeal := head comparisons;
     Compared.ranking :=
       imap (fun idx c =>
               {| Ranking.rank := Z.of_nat idx + 1;
                  Ranking.address := get (Comparison.property c) "address";
                  Ranking.roi := roi_of c;
                  Ranking.cashFlow :=
                    MonthlyNumbers.cashFlow (monthlyNumbers (Comparison.analysis c)) |})
            comparisons |}.

End Compare.

End MCP.

Import JS PropertyCalculator.
Local Open Scope float_scope.

(** * Inputs *)

(** [testProperty] of the test suite. *)
Definition testProperty : object :=
  list_to_map
    [ ("address", VString "123 Test St");
      ("city", VString "Austin");
      ("state", VString "TX");
      ("zipCode", VString "78701");
      ("purchasePrice", VNumber 300000);
      ("monthlyRent", VNumber 2000);
      ("downPaymentPercent", VNumber 20);
      ("interestRate", VNumber 7);
      ("loanTerm", VNumber 30);
      ("propertyTax", VNumber 3000);
      ("insurance", VNumber 1200);
      ("hoaFees", VNumber 0);
      ("maintenancePercent", VNumber 1);
      ("vacancyPercent", VNumber 5);
      ("propertyManagementPercent", VNumber 10) ]%string.

(** [zeroDownProperty] of the test "Edge Case: Zero down payment". *)
Definition zeroDownProperty : object :=
  list_to_map
    [ ("address", VString "123 Test St");
      ("city", VString "Austin");
      ("state", VString "TX");
      ("zipCode", VString "78701");
      ("purchasePrice", VNumber 300000);
      ("monthlyRent", VNumber 2000);
      ("downPaymentPercent", VNumber 0) ]%string.

(** An interest-free loan over one year. *)
Definition zeroRateProperty : object :=
  list_to_map
    [ ("purchasePrice", VNumber 300000);
      ("monthlyRent", VNumber 2000);
      ("interestRate", VNumber 0);
      ("loanTerm", VNumber 1) ]%string.

(** [testProperty] financed over one year. *)
Definition oneYearProperty : object := <["loanTerm" := VNumber 1]> testProperty.

(** [oneYearProperty] with maintenance, vacancy and management at 40
    percent of the rent each. *)
Definition highExpenseProperty : object :=
  <["maintenancePercent" := VNumber 40]>
    (<["vacancyPercent" := VNumber 40]>
       (<["propertyManagementPercent" := VNumber 40]> oneYearProperty)).

(** The fields of [testProperty] as rationals. *)
Definition testCalculatorQ : t Q :=
  PropertyCalculator.make 300000%Q 20%Q 7%Q 30%Q 2000%Q 3000%Q 1200%Q 0%Q 1%Q 5%Q 10%Q.

(** The eleven PropertyParameters, with the coercion the constructor
    applies to each, its default, and the field it fills. *)
Definition parameters : list (string * (value -> float) * float * (t float -> float)) :=
  [ ("purchasePrice", parseFloat, 0, purchasePrice);
    ("downPaymentPercent", parseFloat, 20, downPaymentPercent);
    ("interestRate", parseFloat, 7, interestRate);
    ("loanTerm", parseInt, 30, loanTerm);
    ("monthlyRent", parseFloat, 0, monthlyRent);
    ("propertyTax", parseFloat, 0, propertyTax);
    ("insurance", parseFloat, 0, insurance);
    ("hoaFees", parseFloat, 0, hoaFees);
    ("maintenancePercent", parseFloat, 1, maintenancePercent);
    ("vacancyPercent", parseFloat, 5, vacancyPercent);
    ("propertyManagementPercent", parseFloat, 10, propertyManagementPercent) ]%string.

Definition parameter_names : list string := map (fun p => p.1.1.1) parameters.

(** [testProperty] without a purchase price. *)
Definition noPriceProperty : object := delete "purchasePrice" testProperty.

(** [oneYearProperty] with an infinite purchase price. *)
Definition infinitePriceProperty : object :=
  <["purchasePrice" := VString "Infinity"]> oneYearProperty.

(** The balance of a loan after [n] monthly payments: every month the
    balance bears a month's interest, then the payment is taken off. *)
Fixpoint balance_after (loan monthlyRate payment : Q) (n : nat) : Q :=
  match n with
  | O => loan
  | S k => (balance_after loan monthlyRate payment k * (1 + monthlyRate) - payment)%Q
  end.

(** NaN, Infinity or -Infinity. *)
Definition not_a_finite_number (x : float) : Prop :=
  x = nan \/ x = infinity \/ x = neg_infinity.

(** A body with a rent so high that a percentage of it overflows. *)
Definition hugeRentProperty : object :=
  list_to_map [ ("purchasePrice", VNumber 300000); ("monthlyRent", VNumber 1e308) ]%string.

(** The constraints of the specification's table of parameters, read on
    the constructed instance, with a positive price and loan term: the
    price, rent, tax, insurance and fees are non-negative numbers and the
    loan term is a positive integer. *)
Definition valid_parameters (this : t float) : Prop :=
  (0 <? purchasePrice this) = true
  /\ (exists years : positive, loanTerm this = float_lit (Zpos years))
  /\ (0 <? loanTerm this) = true
  /\ (0 <=? monthlyRent this) = true
  /\ (0 <=? propertyTax this) = true
  /\ (0 <=? insurance this) = true
  /\ (0 <=? hoaFees this) = true.

(** The tolerance as the specification states it: for valid parameters
    with a positive loan term and price, totalExpenses is within 1e-6 of
    the sum of its seven components. *)
Definition totalExpenses_within_tolerance (Math_pow : float -> float -> float) : Prop :=
  forall propertyData : object,
    valid_parameters (constructor propertyData) ->
    (abs (MonthlyNumbers.totalExpenses (monthlyNumbers (analyze Math_pow propertyData))
          - (MonthlyNumbers.mortgage (monthlyNumbers (analyze Math_pow propertyData))
             + MonthlyNumbers.propertyTax (monthlyNumbers (analyze Math_pow propertyData))
             + MonthlyNumbers.insurance (monthlyNumbers (analyze Math_pow propertyData))
             + MonthlyNumbers.hoa (monthlyNumbers (analyze Math_pow propertyData))
             + MonthlyNumbers.maintenance (monthlyNumbers (analyze Math_pow propertyData))
             + MonthlyNumbers.vacancy (monthlyNumbers (analyze Math_pow propertyData))
             + MonthlyNumbers.management (monthlyNumbers (analyze Math_pow propertyData))))
     <? 1e-6) = true.

(** The parameters the net operating income reads. *)
Definition operating_parameters : list string :=
  [ "monthlyRent"; "propertyTax"; "insurance"; "hoaFees";
    "maintenancePercent"; "vacancyPercent"; "propertyManagementPercent" ]%string.

(** Properties to compare: [oneYearProperty], at a higher rent, at a
    lower price, and at the higher rent under another address. *)
Definition highRentProperty : object := <["monthlyRent" := VNumber 30000]> oneYearProperty.

Definition lowPriceProperty : object := <["purchasePrice" := VNumber 100000]> oneYearProperty.

Definition oakAveProperty : object := <["address" := VString "7 Oak Ave"]> highRentProperty.

Definition portfolio : list object :=
  [ oneYearProperty; highRentProperty; lowPriceProperty; oakAveProperty ].

(** Their comparisons, and one whose roi is NaN. *)
Definition oneYearDeal : MCP.Comparison.t := MCP.compare_one pow_integral oneYearProperty.

Definition highRentDeal : MCP.Comparison.t := MCP.compare_one pow_integral highRentProperty.

Definition lowPriceDeal : MCP.Comparison.t := MCP.compare_one pow_integral lowPriceProperty.

Definition infinitePriceDeal : MCP.Comparison.t :=
  MCP.compare_one pow_integral infinitePriceProperty.

(** The same properties by descending roi. *)
Definition rankedPortfolio : list object :=
  [ highRentProperty; oakAveProperty; lowPriceProperty; oneYearProperty ].

(** A rounded number that is not zero and has the sign [s]. *)
Definition signed_nonzero (s : bool) (x : spec_float) : Prop :=
  (exists m e, x = S754_finite s m e) \/ x = S754_infinity s.

(** The least exponent of binary64. *)
Definition emin64 : Z := SpecFloat.emin prec emax.

(** What [Prim2SF] returns for a finite number: the exponent is the one
    the format gives the mantissa's width. *)
Definition canonical (x : spec_float) : Prop :=
  match x with
  | S754_finite _ m e => Z.max (Zpos (digits2_pos m) + e - prec)%Z emin64 = e
  | _ => True
  end.

(** A key that orders the numbers other than NaN: class, then exponent,
    then mantissa, the last two negated for negative numbers. *)
Definition key (x : spec_float) : Z * Z * Z :=
  match x with
  | S754_zero _ | S754_nan => (0, 0, 0)%Z
  | S754_infinity false => (2, 0, 0)%Z
  | S754_infinity true => (-2, 0, 0)%Z
  | S754_finite false m e => (1, e, Zpos m)%Z
  | S754_finite true m e => (-1, - e, Zneg m)%Z
  end.

Definition lt3 (a b : Z * Z * Z) : Prop :=
  (a.1.1 < b.1.1 \/ (a.1.1 = b.1.1 /\ (a.1.2 < b.1.2 \/ (a.1.2 = b.1.2 /\ a.2 < b.2))))%Z.

(** The key of a double. *)
Definition fkey (x : float) : Z * Z * Z := key (Prim2SF x).

(** The order of a ranking: no later element has the greater key. *)
Definition descending {A : Type} (k : A -> float) (l : list A) : Prop :=
  StronglySorted (fun a b => (k b <=? k a) = true) l.

(** * The runtime on examples *)

(** Rounding a ratio of small integers agrees with the division of
    binary64. *)
Example round_ratio_examples :
  round_ratio false 1 3 = 1 / 3
  /\ round_ratio true 2 3 = -2 / 3
  /\ round_ratio false 7 1200 = 7 / 1200
  /\ round_ratio false 532 100 = 5.32
  /\ round_ratio false 9007199254740993 1 = 9007199254740992
  /\ round_decimal false 1 400 = infinity
  /\ round_decimal true 1 (-400) = -0.
Proof. vm_compute. repeat split. Qed.

Example Number_toString_examples :
  Number_toString 300000 = "300000"%string
  /\ Number_toString 0.1 = "0.1"%string
  /\ Number_toString (-2.5) = "-2.5"%string
  /\ Number_toString 1e21 = "1e+21"%string
  /\ Number_toString 0.0000005 = "5e-7"%string
  /\ Number_toString 123456789012345680000 = "123456789012345680000"%string
  /\ Number_toString (-0) = "0"%string.
Proof. vm_compute. repeat split. Qed.

Example parseFloat_examples :
  parseFloat (VNumber 300000) = 300000
  /\ parseFloat (VString "  12.5abc") = 12.5
  /\ parseFloat (VString "-.5e1") = -5
  /\ parseFloat (VString "1e") = 1
  /\ parseFloat (VString "abc") = nan
  /\ parseFloat (VString "") = nan
  /\ parseFloat VUndefined = nan
  /\ parseFloat VNull = nan
  /\ parseFloat (VBoolean true) = nan
  /\ parseFloat (VNumber (-0)) = 0
  /\ parseFloat (VString "-Infinity") = neg_infinity.
Proof. vm_compute. repeat split. Qed.

Example parseInt_examples :
  parseInt (VNumber 30) = 30
  /\ parseInt (VString "30.9 years") = 30
  /\ parseInt (VNumber 30.9) = 30
  /\ parseInt (VString "0x1F") = 31
  /\ parseInt (VNumber 1e21) = 1
  /\ parseInt (VNumber 0.0000005) = 5
  /\ parseInt (VString "Infinity") = nan
  /\ parseInt VUndefined = nan.
Proof. vm_compute. repeat split. Qed.

Example toFixed_examples :
  toFixed 5.32 2 = "5.32"%string
  /\ toFixed 1.005 2 = "1.00"%string
  /\ toFixed 10.235 2 = "10.23"%string
  /\ toFixed 8.345 2 = "8.35"%string
  /\ toFixed (-2.5) 0 = "-3"%string
  /\ toFixed (-0.001) 2 = "-0.00"%string
  /\ toFixed nan 2 = "NaN"%string
  /\ toFixed infinity 2 = "Infinity"%string
  /\ toFixed 1e21 2 = "1e+21"%string.
Proof. vm_compute. repeat split. Qed.

Example pow_integral_examples :
  pow_integral 2 10 = 1024
  /\ pow_integral 2 (-1) = 0.5
  /\ pow_integral (-2) 3 = -8
  /\ pow_integral 1.1 2 = 1.2100000000000002
  /\ pow_integral 0 (-1) = infinity
  /\ pow_integral nan 0 = 1
  /\ pow_integral 1 infinity = nan.
Proof. vm_compute. repeat split. Qed.

(** * Truthiness and [||] *)

Lemma ToBoolean_false (x : float) :
  ToBoolean x = false <-> is_zero x = true \/ is_nan x = true.
Proof.
  unfold ToBoolean. rewrite negb_false_iff, orb_true_iff. reflexivity.
Qed.

Lemma ToBoolean_true (x : float) :
  ToBoolean x = true <-> is_zero x = false /\ is_nan x = false.
Proof.
  unfold ToBoolean. rewrite negb_true_iff, orb_false_iff. reflexivity.
Qed.

Lemma or_else_falsy (a b : float) : ToBoolean a = false -> or_else a b = b.
Proof. unfold or_else. intros ->. reflexivity. Qed.

Lemma or_else_truthy (a b : float) : ToBoolean a = true -> or_else a b = a.
Proof. unfold or_else. intros ->. reflexivity. Qed.

(** With a truthy default, [a || b] is truthy whatever [a] is. *)
Lemma or_else_default_truthy (a b : float) :
  ToBoolean b = true -> ToBoolean (or_else a b) = true.
Proof.
  unfold or_else. intros Hb. destruct (ToBoolean a) eqn:Ha; assumption.
Qed.

Lemma get_absent (o : object) (k : string) : o !! k = None -> get o k = VUndefined.
Proof. unfold get. intros ->. reflexivity. Qed.

Lemma get_insert_eq (o : object) (k : string) (v : value) : get (<[k := v]> o) k = v.
Proof. unfold get. rewrite lookup_insert_eq. reflexivity. Qed.

(** Every field is the coerced parameter, or its default. *)
Lemma constructor_parameters (propertyData : object) :
  Forall (fun '(k, parse, dflt, field) =>
            field (constructor propertyData) = or_else (parse (get propertyData k)) dflt)
         parameters.
Proof. repeat constructor. Qed.

Lemma get_delete_eq (o : object) (k : string) : get (delete k o) k = VUndefined.
Proof. unfold get. rewrite lookup_delete_eq. reflexivity. Qed.

(** One row of [parameters]: what [||] does to a coerced value.  [x] is
    the field for the body as it is, [x1] to [x4] for the body with the
    parameter removed, unparsable, NaN and 0. *)
Lemma coalesce_row (parse : value -> float) (dflt : float)
    (propertyData : object) (k : string) (x x1 x2 x3 x4 : float) :
  ToBoolean (parse VUndefined) = false ->
  ToBoolean (parse (VString "n/a")) = false ->
  ToBoolean (parse (VNumber nan)) = false ->
  ToBoolean (parse (VNumber 0)) = false ->
  x = or_else (parse (get propertyData k)) dflt ->
  x1 = or_else (parse (get (delete k propertyData) k)) dflt ->
  x2 = or_else (parse (get (<[k := VString "n/a"]> propertyData) k)) dflt ->
  x3 = or_else (parse (get (<[k := VNumber nan]> propertyData) k)) dflt ->
  x4 = or_else (parse (get (<[k := VNumber 0]> propertyData) k)) dflt ->
  (propertyData !! k = None
   \/ is_nan (parse (get propertyData k)) = true
   \/ is_zero (parse (get propertyData k)) = true -> x = dflt)
  /\ x1 = dflt /\ x2 = dflt /\ x3 = dflt /\ x4 = dflt
  /\ (ToBoolean dflt = true -> is_zero x = false /\ is_nan x = false).
Proof.
  intros Hundef Hstr Hnan Hzero -> -> -> -> ->.
  rewrite get_delete_eq, !get_insert_eq.
  split; [| repeat split; try (apply or_else_falsy; assumption)].
  - intros [Habsent | [Hn | Hz]]; apply or_else_falsy.
    + rewrite (get_absent _ _ Habsent). exact Hundef.
    + apply ToBoolean_false. right. exact Hn.
    + apply ToBoolean_false. left. exact Hz.
  - apply (ToBoolean_true _), or_else_default_truthy. assumption.
  - apply (ToBoolean_true _), or_else_default_truthy. assumption.
Qed.

(** The fields with a nonzero default are the rows of [parameters] with a
    truthy default. *)
Lemma truthy_defaults :
  map (fun p => p.1.1.1) (filter (fun p => ToBoolean p.1.2 = true) parameters)
  = [ "downPaymentPercent"; "interestRate"; "loanTerm"; "maintenancePercent";
      "vacancyPercent"; "propertyManagementPercent" ]%string.
Proof. reflexivity. Qed.

(** * Doubles *)

(** A finite double is a zero or a signed mantissa with an exponent. *)
Lemma Prim2SF_finite_cases (x : float) :
  is_finite x = true ->
  (exists s, Prim2SF x = S754_zero s) \/ (exists s m e, Prim2SF x = S754_finite s m e).
Proof.
  unfold is_finite, is_nan, is_infinity. intros H.
  apply negb_true_iff, orb_false_iff in H. destruct H as [Hn Hi].
  apply negb_false_iff in Hn.
  rewrite FloatAxioms.eqb_spec in Hn. rewrite FloatAxioms.eqb_spec, abs_spec in Hi.
  destruct (Prim2SF x) as [s | s | | s m e] eqn:E.
  - left. eauto.
  - destruct s; discriminate Hi.
  - discriminate Hn.
  - right. eauto.
Qed.

Lemma SF64sub_diag (s : bool) (m : positive) (e : Z) :
  SF64sub (S754_finite s m e) (S754_finite s m e) = S754_zero false.
Proof.
  unfold SF64sub, SFsub. rewrite Z.sub_diag. reflexivity.
Qed.

(** A finite double minus itself is [+0]. *)
Lemma sub_diag_finite (x : float) : is_finite x = true -> x - x = 0.
Proof.
  intros H. rewrite <- (SF2Prim_Prim2SF (x - x)), sub_spec.
  destruct (Prim2SF_finite_cases x H) as [[s ->] | (s & m & e & ->)].
  - destruct s; reflexivity.
  - rewrite SF64sub_diag. reflexivity.
Qed.

(** [x === x] unless [x] is NaN. *)
Lemma eqb_refl_not_nan (x : float) : is_nan x = false -> (x =? x) = true.
Proof. unfold is_nan. intros H. apply negb_false_iff in H. exact H. Qed.

(** * The constructor *)

(** C3. For every request body the constructor replaces a falsy coerced
    value by the field's default, row by row of [parameters]: a field that
    is absent, or whose coercion is NaN or zero, gets its default; so does
    the field of the body with the parameter removed, set to an unparsable
    string, set to NaN, or set to the Number 0.  Hence a field whose
    default is not zero (downPaymentPercent, interestRate, loanTerm,
    maintenancePercent, vacancyPercent, propertyManagementPercent) is
    never zero and never NaN after construction. *)
Theorem constructor_coalesces_falsy (propertyData : object) :
  Forall (fun '(k, parse, dflt, field) =>
            (propertyData !! k = None
             \/ is_nan (parse (get propertyData k)) = true
             \/ is_zero (parse (get propertyData k)) = true ->
             field (constructor propertyData) = dflt)
            /\ field (constructor (delete k propertyData)) = dflt
            /\ field (constructor (<[k := VString "n/a"]> propertyData)) = dflt
            /\ field (constructor (<[k := VNumber nan]> propertyData)) = dflt
            /\ field (constructor (<[k := VNumber 0]> propertyData)) = dflt
            /\ (ToBoolean dflt = true ->
                is_zero (field (constructor propertyData)) = false
                /\ is_nan (field (constructor propertyData)) = false))
         parameters.
Proof.
  unfold parameters.
  repeat (apply List.Forall_cons; [apply coalesce_row; reflexivity |]).
  apply List.Forall_nil.
Qed.

Lemma constructor_coalesces_falsy_witness :
  is_zero (parseFloat (get zeroDownProperty "downPaymentPercent")) = true
  /\ downPaymentPercent (constructor zeroDownProperty) = 20.
Proof.
  split; [reflexivity |].
  pose proof (Forall_lookup_1 _ _ 1%nat _
                (constructor_coalesces_falsy zeroDownProperty) eq_refl) as [H _].
  apply H. right. right. reflexivity.
Defined.

(** * The recommendation *)

(** The four rules of [getRecommendation], first match first. *)
Lemma getRecommendation_cases (monthlyCashFlow roi : float) :
  let r := getRecommendation monthlyCashFlow roi in
  ((monthlyCashFlow <? 0) = true ->
   Recommendation.verdict r = "AVOID"%string /\ Recommendation.color r = "red"%string)
  /\ ((monthlyCashFlow <? 0) = false ->
      (monthlyCashFlow <? 100) || (roi <? 5) = true ->
      Recommendation.verdict r = "MARGINAL"%string
      /\ Recommendation.color r = "yellow"%string)
  /\ ((monthlyCashFlow <? 0) = false ->
      (monthlyCashFlow <? 100) || (roi <? 5) = false ->
      (10 <=? roi) && (200 <=? monthlyCashFlow) = true ->
      Recommendation.verdict r = "EXCELLENT"%string
      /\ Recommendation.color r = "green"%string)
  /\ ((monthlyCashFlow <? 0) = false ->
      (monthlyCashFlow <? 100) || (roi <? 5) = false ->
      (10 <=? roi) && (200 <=? monthlyCashFlow) = false ->
      Recommendation.verdict r = "GOOD"%string /\ Recommendation.color r = "blue"%string).
Proof.
  unfold getRecommendation.
  destruct (monthlyCashFlow <? 0) eqn:H1;
    destruct ((monthlyCashFlow <? 100) || (roi <? 5)) eqn:H2;
    destruct ((10 <=? roi) && (200 <=? monthlyCashFlow)) eqn:H3;
    cbn; repeat split; intros; try discriminate; reflexivity.
Qed.

(** * The mortgage *)

(** [getMonthlyMortgage] is straight-line whenever the monthly rate is
    zero, in either arithmetic. *)
Lemma straight_line_when_rate_is_zero {N : Type} `{Arith N} (this : t N) :
  is0 (divide (divide (interestRate this) (lit 100)) (lit 12)) = true ->
  getMonthlyMortgage this = divide (getLoanAmount this) (times (loanTerm this) (lit 12)).
Proof. unfold getMonthlyMortgage. intros ->. reflexivity. Qed.

(** * The report, for any host's [Math.pow] *)

Section Engine.
Variable Math_pow : float -> float -> float.
#[local] Hint Extern 0 (Arith float) => exact (float_arith Math_pow) : typeclass_instances.

(** The report's monthly cash flow and mortgage are the calculator's. *)
Lemma cashFlow_of_eq (propertyData : object) :
  cashFlow_of Math_pow propertyData = getMonthlyCashFlow (constructor propertyData).
Proof. reflexivity. Qed.

Lemma report_mortgage (propertyData : object) :
  MonthlyNumbers.mortgage (monthlyNumbers (analyze Math_pow propertyData))
  = getMonthlyMortgage (constructor propertyData).
Proof. reflexivity. Qed.

(** Over doubles an instance whose rate is 0 pays straight-line. *)
Lemma zero_rate_pays_straight_line (this : t float) :
  interestRate this = 0 ->
  getMonthlyMortgage this = getLoanAmount this / (loanTerm this * 12).
Proof.
  intros Hrate.
  rewrite (straight_line_when_rate_is_zero this); [reflexivity |].
  rewrite Hrate. reflexivity.
Qed.

(** C1, which the code does not meet.  For the body of the zero-down test
    (purchasePrice 300000, downPaymentPercent 0) the report has
    downPaymentPercent 20, downPayment 60000 and loanAmount 240000: the
    down payment is not within 0.01 of 0 and the loan amount is not within
    0.01 of the purchase price. *)
Theorem zero_down_payment_gets_default :
  let info := purchaseInfo (analyze Math_pow zeroDownProperty) in
  PurchaseInfo.downPaymentPercent info = 20
  /\ PurchaseInfo.downPayment info = 60000
  /\ PurchaseInfo.loanAmount info = 240000
  /\ (abs (PurchaseInfo.downPayment info) <? 0.01) = false
  /\ (abs (PurchaseInfo.loanAmount info - 300000) <? 0.01) = false.
Proof. vm_compute. repeat split. Qed.

(** C4. The report's recommendation is [getRecommendation] at the report's
    own monthly cash flow and ROI, and [getRecommendation] goes by first
    match: cash flow below 0 gives AVOID (red); otherwise cash flow below
    100 or ROI below 5 gives MARGINAL (yellow); otherwise ROI at least 10
    and cash flow at least 200 gives EXCELLENT (green); otherwise GOOD
    (blue).  In particular a report with negative monthly cash flow says
    AVOID whatever its ROI. *)
Theorem recommendation_first_match (propertyData : object) (monthlyCashFlow roi : float) :
  let report := analyze Math_pow propertyData in
  let r := getRecommendation monthlyCashFlow roi in
  recommendation report
  = getRecommendation (MonthlyNumbers.cashFlow (monthlyNumbers report))
                      (Metrics.roi (metrics report))
  /\ ((MonthlyNumbers.cashFlow (monthlyNumbers report) <? 0) = true ->
      Recommendation.verdict (recommendation report) = "AVOID"%string
      /\ Recommendation.color (recommendation report) = "red"%string)
  /\ ((monthlyCashFlow <? 0) = true ->
      Recommendation.verdict r = "AVOID"%string /\ Recommendation.color r = "red"%string)
  /\ ((monthlyCashFlow <? 0) = false ->
      (monthlyCashFlow <? 100) || (roi <? 5) = true ->
      Recommendation.verdict r = "MARGINAL"%string
      /\ Recommendation.color r = "yellow"%string)
  /\ ((monthlyCashFlow <? 0) = false ->
      (monthlyCashFlow <? 100) || (roi <? 5) = false ->
      (10 <=? roi) && (200 <=? monthlyCashFlow) = true ->
      Recommendation.verdict r = "EXCELLENT"%string
      /\ Recommendation.color r = "green"%string)
  /\ ((monthlyCashFlow <? 0) = false ->
      (monthlyCashFlow <? 100) || (roi <? 5) = false ->
      (10 <=? roi) && (200 <=? monthlyCashFlow) = false ->
      Recommendation.verdict r = "GOOD"%string /\ Recommendation.color r = "blue"%string).
Proof.
  intros report r. split; [reflexivity |]. split.
  - intros Hneg.
    change (recommendation report)
      with (getRecommendation (MonthlyNumbers.cashFlow (monthlyNumbers report))
                              (Metrics.roi (metrics report))).
    apply (getRecommendation_cases _ _). exact Hneg.
  - apply getRecommendation_cases.
Qed.

(** C5. For every input [getROI] and [getCashOnCashReturn] return the same
    string, the one of the formula annualCashFlow / downPayment * 100 to
    two decimals, and the report's metrics.roi equals its
    metrics.cashOnCashReturn. *)
Theorem roi_is_cashOnCashReturn (propertyData : object) :
  let this := constructor propertyData in
  let report := analyze Math_pow propertyData in
  getROI Math_pow this = getCashOnCashReturn Math_pow this
  /\ getCashOnCashReturn Math_pow this = cashOnCash_formula Math_pow this
  /\ Metrics.roi (metrics report) = Metrics.cashOnCashReturn (metrics report)
  /\ Metrics.roi (metrics report) = parseFloat_string (cashOnCash_formula Math_pow this).
Proof. repeat split. Qed.

(** C6. For every input the report's totalExpenses is the sum, taken left
    to right, of its mortgage, propertyTax, insurance, hoa, maintenance,
    vacancy and management, and of nothing else; whenever that total is
    finite, it is within 1e-6 of the sum. *)
Theorem totalExpenses_is_sum (propertyData : object) :
  let m := monthlyNumbers (analyze Math_pow propertyData) in
  let sum := MonthlyNumbers.mortgage m + MonthlyNumbers.propertyTax m
             + MonthlyNumbers.insurance m + MonthlyNumbers.hoa m
             + MonthlyNumbers.maintenance m + MonthlyNumbers.vacancy m
             + MonthlyNumbers.management m in
  MonthlyNumbers.totalExpenses m = sum
  /\ (is_finite (MonthlyNumbers.totalExpenses m) = true ->
      (abs (MonthlyNumbers.totalExpenses m - sum) <? 1e-6) = true).
Proof.
  intros m sum.
  assert (Hsum : MonthlyNumbers.totalExpenses m = sum) by reflexivity.
  split; [exact Hsum |].
  intros Hfin. rewrite <- Hsum, (sub_diag_finite _ Hfin). reflexivity.
Qed.

(** C7. For every input the report's annualNumbers.cashFlow is its
    monthlyNumbers.cashFlow times 12, the same double; and the two compare
    equal under [===] unless the cash flow is NaN. *)
Theorem annual_cashFlow_is_twelve_monthly (propertyData : object) :
  let report := analyze Math_pow propertyData in
  let monthly := MonthlyNumbers.cashFlow (monthlyNumbers report) in
  let annual := AnnualNumbers.cashFlow (annualNumbers report) in
  annual = monthly * 12
  /\ (is_nan annual = false -> (annual =? monthly * 12) = true).
Proof.
  intros report monthly annual.
  assert (H12 : annual = monthly * 12) by reflexivity.
  split; [exact H12 |].
  intros Hnan. rewrite <- H12. apply eqb_refl_not_nan. exact Hnan.
Qed.

(** C8. For [testProperty] the report's annualNumbers.noi is
    24000 - (3000 + 1200 + 0 + 240 + 1200 + 2400) = 15960 and its
    metrics.capRate is 5.32, read back from the string "5.32". *)
Theorem testProperty_noi_and_capRate :
  let report := analyze Math_pow testProperty in
  AnnualNumbers.noi (annualNumbers report) = 15960
  /\ 24000 - (3000 + 1200 + 0 + 240 + 1200 + 2400) = 15960
  /\ getCapRate Math_pow (constructor testProperty) = "5.32"%string
  /\ Metrics.capRate (metrics report) = 5.32.
Proof. vm_compute. repeat split. Qed.

(** C10. The report is a function of the eleven PropertyParameters alone:
    two request bodies that agree on them, whatever else they carry, get
    the same report from the same host; so analysing identical input twice
    gives identical reports. *)
Theorem report_is_function_of_parameters (d1 d2 : object) :
  Forall (fun k => d1 !! k = d2 !! k) parameter_names ->
  analyze Math_pow d1 = analyze Math_pow d2.
Proof.
  intros Hagree.
  assert (Hget : forall k, In k parameter_names -> get d1 k = get d2 k).
  { intros k Hk. unfold get.
    rewrite (proj1 (List.Forall_forall _ _) Hagree k Hk). reflexivity. }
  unfold analyze. f_equal. unfold constructor.
  rewrite !Hget by (cbn; tauto). reflexivity.
Qed.

End Engine.

(** * Expenses that overflow *)

(** Adding Infinity gives Infinity or NaN. *)
Lemma plus_infinity (y : float) : y + infinity = infinity \/ y + infinity = nan.
Proof.
  pose proof (add_spec y infinity) as H.
  change (Prim2SF infinity) with (S754_infinity false) in H.
  rewrite <- (SF2Prim_Prim2SF (y + infinity)), H.
  destruct (Prim2SF y) as [[] | [] | | [] m e]; cbn; auto.
Qed.

(** A sum that ends in two infinite terms is not within any tolerance of
    itself: it is Infinity or NaN, and its difference from itself is NaN. *)
Lemma infinite_sum_misses_tolerance (y : float) :
  is_finite (y + infinity + infinity) = false
  /\ (abs (y + infinity + infinity - (y + infinity + infinity)) <? 1e-6) = false.
Proof. destruct (plus_infinity y) as [-> | ->]; split; reflexivity. Qed.

Lemma hugeRent_is_valid : valid_parameters (constructor hugeRentProperty).
Proof.
  unfold valid_parameters.
  split; [vm_compute; reflexivity |].
  split; [exists 30%positive; vm_compute; reflexivity |].
  repeat split; vm_compute; reflexivity.
Qed.

(** For [hugeRentProperty] the vacancy and management expenses are
    infinite, whatever the host's [Math.pow] gives for the mortgage. *)
Lemma hugeRent_expenses (Math_pow : float -> float -> float) :
  MonthlyNumbers.vacancy (monthlyNumbers (analyze Math_pow hugeRentProperty)) = infinity
  /\ MonthlyNumbers.management (monthlyNumbers (analyze Math_pow hugeRentProperty)) = infinity.
Proof. split; vm_compute; reflexivity. Qed.

(** C6 as stated fails in its tolerance half.  [hugeRentProperty] has
    valid parameters, a price of 300000 and a loan term of 30, and a rent
    of 1e308; 5 and 10 percent of that rent overflow, so for every host
    totalExpenses is Infinity or NaN, its difference from the sum of the
    seven components is NaN, and the comparison with 1e-6 is false. *)
Lemma infinite_expenses_miss_tolerance :
  valid_parameters (constructor hugeRentProperty)
  /\ (forall Math_pow : float -> float -> float,
        is_finite (MonthlyNumbers.totalExpenses
                     (monthlyNumbers (analyze Math_pow hugeRentProperty))) = false
        /\ (abs (MonthlyNumbers.totalExpenses
                   (monthlyNumbers (analyze Math_pow hugeRentProperty))
                 - (MonthlyNumbers.mortgage (monthlyNumbers (analyze Math_pow hugeRentProperty))
                    + MonthlyNumbers.propertyTax
                        (monthlyNumbers (analyze Math_pow hugeRentProperty))
                    + MonthlyNumbers.insurance
                        (monthlyNumbers (analyze Math_pow hugeRentProperty))
                    + MonthlyNumbers.hoa (monthlyNumbers (analyze Math_pow hugeRentProperty))
                    + MonthlyNumbers.maintenance
                        (monthlyNumbers (analyze Math_pow hugeRentProperty))
                    + MonthlyNumbers.vacancy
                        (monthlyNumbers (analyze Math_pow hugeRentProperty))
                    + MonthlyNumbers.management
                        (monthlyNumbers (analyze Math_pow hugeRentProperty))))
             <? 1e-6) = false)
  /\ (forall Math_pow : float -> float -> float, ~ totalExpenses_within_tolerance Math_pow).
Proof.
  assert (H : forall Math_pow : float -> float -> float,
        is_finite (MonthlyNumbers.totalExpenses
                     (monthlyNumbers (analyze Math_pow hugeRentProperty))) = false
        /\ (abs (MonthlyNumbers.totalExpenses
                   (monthlyNumbers (analyze Math_pow hugeRentProperty))
                 - (MonthlyNumbers.mortgage (monthlyNumbers (analyze Math_pow hugeRentProperty))
                    + MonthlyNumbers.propertyTax
                        (monthlyNumbers (analyze Math_pow hugeRentProperty))
                    + MonthlyNumbers.insurance
                        (monthlyNumbers (analyze Math_pow hugeRentProperty))
                    + MonthlyNumbers.hoa (monthlyNumbers (analyze Math_pow hugeRentProperty))
                    + MonthlyNumbers.maintenance
                        (monthlyNumbers (analyze Math_pow hugeRentProperty))
                    + MonthlyNumbers.vacancy
                        (monthlyNumbers (analyze Math_pow hugeRentProperty))
                    + MonthlyNumbers.management
                        (monthlyNumbers (analyze Math_pow hugeRentProperty))))
             <? 1e-6) = false).
  { intros Math_pow.
    change (MonthlyNumbers.totalExpenses (monthlyNumbers (analyze Math_pow hugeRentProperty)))
      with (MonthlyNumbers.mortgage (monthlyNumbers (analyze Math_pow hugeRentProperty))
            + MonthlyNumbers.propertyTax (monthlyNumbers (analyze Math_pow hugeRentProperty))
            + MonthlyNumbers.insurance (monthlyNumbers (analyze Math_pow hugeRentProperty))
            + MonthlyNumbers.hoa (monthlyNumbers (analyze Math_pow hugeRentProperty))
            + MonthlyNumbers.maintenance (monthlyNumbers (analyze Math_pow hugeRentProperty))
            + MonthlyNumbers.vacancy (monthlyNumbers (analyze Math_pow hugeRentProperty))
            + MonthlyNumbers.management (monthlyNumbers (analyze Math_pow hugeRentProperty))).
    destruct (hugeRent_expenses Math_pow) as [-> ->].
    apply infinite_sum_misses_tolerance. }
  split; [exact hugeRent_is_valid |]. split; [exact H |].
  intros Math_pow Htol.
  specialize (Htol hugeRentProperty hugeRent_is_valid).
  destruct (H Math_pow) as [_ Hfalse]. rewrite Hfalse in Htol. discriminate Htol.
Qed.

(** * The report with the reference [Math.pow] *)

(** C2, which the code does not meet.  For an interest-free one-year loan
    (interestRate 0, loanTerm 1, purchasePrice 300000) the constructed
    rate is 7; the monthly mortgage is the amortised payment at 7 percent,
    for every host; with the correctly rounded power it is
    20766.419063553076, not loanAmount / (loanTerm * 12) = 20000. *)
Theorem zero_interest_rate_gets_default :
  let this := constructor zeroRateProperty in
  interestRate this = 7
  /\ loanTerm this = 1
  /\ (forall Math_pow,
        getMonthlyMortgage (H := float_arith Math_pow) this
        = 240000 * (7 / 100 / 12 * Math_pow (1 + 7 / 100 / 12) 12)
          / (Math_pow (1 + 7 / 100 / 12) 12 - 1))
  /\ MonthlyNumbers.mortgage (monthlyNumbers (analyze pow_integral zeroRateProperty))
     = 20766.419063553076
  /\ getLoanAmount (H := float_arith pow_integral) this / (loanTerm this * 12) = 20000.
Proof.
  cbv zeta. rewrite report_mortgage.
  split; [reflexivity |]. split; [reflexivity |].
  split; [intros Math_pow; vm_compute; reflexivity |].
  vm_compute. split; reflexivity.
Qed.

(** Monthly cash flows of [oneYearProperty] and of [highExpenseProperty]
    at the rents compared below. *)
Lemma cashFlow_oneYear_2000 :
  cashFlow_of pow_integral (<["monthlyRent" := VNumber 2000]> oneYearProperty)
  = -19436.419063553076.
Proof. rewrite cashFlow_of_eq. vm_compute. reflexivity. Qed.

Lemma cashFlow_oneYear_next :
  cashFlow_of pow_integral (<["monthlyRent" := VNumber 2000.0000000000002]> oneYearProperty)
  = -19436.419063553076.
Proof. rewrite cashFlow_of_eq. vm_compute. reflexivity. Qed.

Lemma cashFlow_highExpense_1000 :
  cashFlow_of pow_integral (<["monthlyRent" := VNumber 1000]> highExpenseProperty)
  = -21316.419063553076.
Proof. rewrite cashFlow_of_eq. vm_compute. reflexivity. Qed.

Lemma cashFlow_highExpense_2000 :
  cashFlow_of pow_integral (<["monthlyRent" := VNumber 2000]> highExpenseProperty)
  = -21516.419063553076.
Proof. rewrite cashFlow_of_eq. vm_compute. reflexivity. Qed.

(** C9 as stated fails, twice over.  With maintenance, vacancy and
    management at 40 percent each, raising the rent from 1000 to 2000
    lowers the monthly cash flow by 200.  And with the default
    percentages of [oneYearProperty], raising the rent from 2000 to the
    next double, 2000.0000000000002, leaves the monthly cash flow where it
    was: the increase is lost to rounding. *)
Lemma rent_increase_can_lower_cashFlow :
  (cashFlow_of pow_integral (<["monthlyRent" := VNumber 2000]> highExpenseProperty)
   <? cashFlow_of pow_integral (<["monthlyRent" := VNumber 1000]> highExpenseProperty)) = true
  /\ (2000 <? 2000.0000000000002) = true
  /\ (cashFlow_of pow_integral (<["monthlyRent" := VNumber 2000]> oneYearProperty)
      <? cashFlow_of pow_integral (<["monthlyRent" := VNumber 2000.0000000000002]> oneYearProperty))
     = false
  /\ ~ rent_strictly_increases_cashFlow pow_integral.
Proof.
  rewrite cashFlow_highExpense_1000, cashFlow_highExpense_2000,
    cashFlow_oneYear_2000, cashFlow_oneYear_next.
  split; [reflexivity |]. split; [reflexivity |]. split; [reflexivity |].
  intros Hmono.
  specialize (Hmono highExpenseProperty 1000 2000 eq_refl).
  rewrite cashFlow_highExpense_1000, cashFlow_highExpense_2000 in Hmono.
  discriminate Hmono.
Qed.

(** * The formulas in exact arithmetic *)

Section Exact.
Variable pow : Q -> Q -> Q.
#[local] Hint Extern 0 (Arith Q) => exact (Q_arith pow) : typeclass_instances.
Local Open Scope Q_scope.

(** The mortgage does not depend on the rent. *)
Lemma mortgage_with_monthlyRent (this : t Q) (rent : Q) :
  getMonthlyMortgage (with_monthlyRent this rent) = getMonthlyMortgage this.
Proof. reflexivity. Qed.

Lemma cashFlow_difference (K r1 r2 a b h m v p : Q) :
  m + v + p < 100 -> r1 < r2 ->
  r1 - (K + a + b + h + r1 * m / 100 + r1 * v / 100 + r1 * p / 100)
  < r2 - (K + a + b + h + r2 * m / 100 + r2 * v / 100 + r2 * p / 100).
Proof.
  intros Hsum Hrent. apply Qlt_minus_iff.
  setoid_replace
    (r2 - (K + a + b + h + r2 * m / 100 + r2 * v / 100 + r2 * p / 100)
     + - (r1 - (K + a + b + h + r1 * m / 100 + r1 * v / 100 + r1 * p / 100)))
    with ((r2 - r1) * ((100 - (m + v + p)) / 100)) using relation Qeq by field.
  apply Qmult_lt_0_compat.
  - lra.
  - apply Qlt_shift_div_l; lra.
Qed.

(** C9, amended.  With the formulas evaluated over the rationals and
    maintenancePercent + vacancyPercent + propertyManagementPercent below
    100, an instance with a larger monthly rent and all other fields the
    same has a strictly larger monthly cash flow. *)
Theorem exact_cashFlow_increases_with_rent (this : t Q) (rent : Q) :
  maintenancePercent this + vacancyPercent this + propertyManagementPercent this < 100 ->
  monthlyRent this < rent ->
  getMonthlyCashFlow this < getMonthlyCashFlow (with_monthlyRent this rent).
Proof.
  intros Hsum Hrent.
  unfold getMonthlyCashFlow, getMonthlyExpenses.
  rewrite mortgage_with_monthlyRent.
  cbn [Expenses.total with_monthlyRent monthlyRent propertyTax insurance hoaFees
       maintenancePercent vacancyPercent propertyManagementPercent
       plus minus times divide lit Q_arith].
  apply cashFlow_difference; assumption.
Qed.

End Exact.

(** * Instances of the theorems *)

Lemma recommendation_first_match_witness :
  let report := analyze pow_integral oneYearProperty in
  (MonthlyNumbers.cashFlow (monthlyNumbers report) <? 0) = true
  /\ Recommendation.verdict (recommendation report) = "AVOID"%string
  /\ (-1 <? 0) = true
  /\ Recommendation.verdict (getRecommendation (-1) 50) = "AVOID"%string.
Proof.
  intros report.
  destruct (recommendation_first_match pow_integral oneYearProperty (-1) 50)
    as (_ & Hreport & Havoid & _).
  assert (Hneg : (MonthlyNumbers.cashFlow (monthlyNumbers report) <? 0) = true)
    by (vm_compute; reflexivity).
  split; [exact Hneg |].
  split; [apply Hreport; exact Hneg |].
  split; [reflexivity |].
  apply Havoid. reflexivity.
Defined.

Lemma totalExpenses_is_sum_witness :
  let m := monthlyNumbers (analyze pow_integral oneYearProperty) in
  is_finite (MonthlyNumbers.totalExpenses m) = true
  /\ (abs (MonthlyNumbers.totalExpenses m
           - (MonthlyNumbers.mortgage m + MonthlyNumbers.propertyTax m
              + MonthlyNumbers.insurance m + MonthlyNumbers.hoa m
              + MonthlyNumbers.maintenance m + MonthlyNumbers.vacancy m
              + MonthlyNumbers.management m)) <? 1e-6) = true.
Proof.
  intros m.
  assert (Hfin : is_finite (MonthlyNumbers.totalExpenses m) = true)
    by (vm_compute; reflexivity).
  split; [exact Hfin |].
  apply (totalExpenses_is_sum pow_integral oneYearProperty). exact Hfin.
Defined.

Lemma annual_cashFlow_is_twelve_monthly_witness :
  let report := analyze pow_integral oneYearProperty in
  is_nan (AnnualNumbers.cashFlow (annualNumbers report)) = false
  /\ (AnnualNumbers.cashFlow (annualNumbers report)
      =? MonthlyNumbers.cashFlow (monthlyNumbers report) * 12) = true.
Proof.
  intros report.
  assert (Hnan : is_nan (AnnualNumbers.cashFlow (annualNumbers report)) = false)
    by (vm_compute; reflexivity).
  split; [exact Hnan |].
  apply (annual_cashFlow_is_twelve_monthly pow_integral oneYearProperty). exact Hnan.
Defined.

Lemma report_is_function_of_parameters_witness :
  let moved := <["address" := VString "9 Elm St"]> testProperty in
  Forall (fun k => testProperty !! k = moved !! k) parameter_names
  /\ analyze pow_integral testProperty = analyze pow_integral moved.
Proof.
  intros moved.
  assert (Hagree : Forall (fun k => testProperty !! k = moved !! k) parameter_names)
    by (repeat (apply List.Forall_cons; [vm_compute; reflexivity |]); apply List.Forall_nil).
  split; [exact Hagree |].
  apply report_is_function_of_parameters. exact Hagree.
Defined.

Lemma exact_cashFlow_increases_with_rent_witness :
  (maintenancePercent testCalculatorQ + vacancyPercent testCalculatorQ
   + propertyManagementPercent testCalculatorQ < 100)%Q
  /\ (monthlyRent testCalculatorQ < 2500)%Q
  /\ (getMonthlyCashFlow (H := Q_arith pow_exact) testCalculatorQ
      < getMonthlyCashFlow (H := Q_arith pow_exact) (with_monthlyRent testCalculatorQ 2500))%Q.
Proof.
  split; [reflexivity |]. split; [reflexivity |].
  apply exact_cashFlow_increases_with_rent; reflexivity.
Defined.

(** * Doubles that are not finite *)

Lemma float_of_spec (x : float) (s : spec_float) : Prim2SF x = s -> x = SF2Prim s.
Proof. intros <-. symmetry. apply SF2Prim_Prim2SF. Qed.

Lemma not_a_finite_number_is_finite (x : float) :
  not_a_finite_number x -> is_finite x = false.
Proof. intros [-> | [-> | ->]]; reflexivity. Qed.

Lemma SFcompare_finite_refl (s : bool) (m : positive) (e : Z) :
  SFcompare (S754_finite s m e) (S754_finite s m e) = Some Eq.
Proof.
  cbn. rewrite Z.compare_refl, Pos.compare_cont_refl. destruct s; reflexivity.
Qed.

Lemma is_nan_eq (x : float) : is_nan x = true -> x = nan.
Proof.
  unfold is_nan. rewrite FloatAxioms.eqb_spec. intros H.
  apply (float_of_spec x S754_nan).
  destruct (Prim2SF x) as [s | s | | s m e]; try reflexivity.
  - discriminate H.
  - destruct s; discriminate H.
  - unfold SFeqb in H. rewrite SFcompare_finite_refl in H. discriminate H.
Qed.

Lemma is_zero_spec (x : float) : is_zero x = true -> exists s, Prim2SF x = S754_zero s.
Proof.
  unfold is_zero. rewrite FloatAxioms.eqb_spec. intros H.
  change (Prim2SF PrimFloat.zero) with (S754_zero false) in H.
  destruct (Prim2SF x) as [s | s | | s m e]; [eauto | | |].
  - destruct s; discriminate H.
  - discriminate H.
  - destruct s; discriminate H.
Qed.

(** Dividing by a zero or by NaN never gives a finite number. *)
Lemma div_by_zero_or_nan (x z : float) :
  is_zero z = true \/ is_nan z = true -> not_a_finite_number (x / z).
Proof.
  intros [Hz | Hn].
  - destruct (is_zero_spec z Hz) as [sz Ez].
    pose proof (div_spec x z) as Hd. rewrite Ez in Hd.
    apply float_of_spec in Hd. rewrite Hd. unfold not_a_finite_number.
    destruct (Prim2SF x) as [s | s | | s m e]; try destruct s; destruct sz; cbn; auto.
  - rewrite (is_nan_eq z Hn).
    pose proof (div_spec x nan) as Hd. change (Prim2SF nan) with S754_nan in Hd.
    apply float_of_spec in Hd. rewrite Hd. left.
    destruct (Prim2SF x) as [s | s | | s m e]; reflexivity.
Qed.

Lemma nan_div (y : float) : nan / y = nan.
Proof.
  pose proof (div_spec nan y) as Hd. change (Prim2SF nan) with S754_nan in Hd.
  apply float_of_spec in Hd. exact Hd.
Qed.

(** [+0 * p / 100] is a zero or NaN. *)
Lemma zero_times_percent (p : float) :
  is_zero (0 * p / 100) = true \/ is_nan (0 * p / 100) = true.
Proof.
  pose proof (mul_spec 0 p) as Hm. change (Prim2SF 0) with (S754_zero false) in Hm.
  apply float_of_spec in Hm. rewrite Hm.
  destruct (Prim2SF p) as [s | s | | s m e]; try destruct s; cbn; auto.
Qed.

(** A metric that is not finite survives [toFixed(2)] and [parseFloat]. *)
Lemma metric_not_finite (x : float) :
  not_a_finite_number x ->
  not_a_finite_number (parseFloat_string (toFixed (x * 100) 2)).
Proof.
  unfold not_a_finite_number.
  intros [-> | [-> | ->]]; vm_compute; auto.
Qed.

(** * Edge cases of the report *)

Section Edges.
Variable Math_pow : float -> float -> float.
#[local] Hint Extern 0 (Arith float) => exact (float_arith Math_pow) : typeclass_instances.

(** Without a usable purchase price the constructed price is [+0]. *)
Lemma price_defaults_to_zero (propertyData : object) :
  ToBoolean (parseFloat (get propertyData "purchasePrice")) = false ->
  purchasePrice (constructor propertyData) = 0.
Proof. intros H. apply or_else_falsy. exact H. Qed.

(** X2.  A body with no purchase price, or one that is zero or unparsable, gets
    a report whose capRate, cashOnCashReturn and roi are NaN or an
    infinity, never a finite number, whatever the other fields are. *)
Theorem no_price_no_finite_metric (propertyData : object) :
  ToBoolean (parseFloat (get propertyData "purchasePrice")) = false ->
  let m := metrics (analyze Math_pow propertyData) in
  is_finite (Metrics.capRate m) = false
  /\ is_finite (Metrics.cashOnCashReturn m) = false
  /\ is_finite (Metrics.roi m) = false.
Proof.
  intros Hprice m.
  pose proof (price_defaults_to_zero propertyData Hprice) as H0.
  assert (Hcap : not_a_finite_number (Metrics.capRate m)).
  { unfold m, analyze, getFullAnalysis, getCapRate. cbn [metrics Metrics.capRate].
    rewrite H0. apply metric_not_finite, div_by_zero_or_nan. left. reflexivity. }
  assert (Hroi : not_a_finite_number (Metrics.roi m)).
  { unfold m, analyze, getFullAnalysis, getROI. cbn [metrics Metrics.roi].
    apply metric_not_finite, div_by_zero_or_nan.
    unfold getDownPayment. rewrite H0. apply zero_times_percent. }
  repeat split; apply not_a_finite_number_is_finite; assumption.
Qed.

(** The report's recommendation and roi, from its monthly cash flow. *)
Lemma recommendation_of_report (propertyData : object) :
  recommendation (analyze Math_pow propertyData)
  = getRecommendation (cashFlow_of Math_pow propertyData)
                      (Metrics.roi (metrics (analyze Math_pow propertyData))).
Proof. reflexivity. Qed.

Lemma roi_of_report (propertyData : object) :
  Metrics.roi (metrics (analyze Math_pow propertyData))
  = parseFloat_string
      (toFixed (cashFlow_of Math_pow propertyData * 12
                / getDownPayment (constructor propertyData) * 100) 2).
Proof. reflexivity. Qed.

(** X3.  A report whose monthly cash flow is NaN has a NaN roi and is rated
    GOOD (blue): every comparison of [getRecommendation] with NaN is
    false, so the last branch is taken. *)
Theorem nan_cashFlow_is_rated_good (propertyData : object) :
  let report := analyze Math_pow propertyData in
  is_nan (MonthlyNumbers.cashFlow (monthlyNumbers report)) = true ->
  is_nan (Metrics.roi (metrics report)) = true
  /\ Recommendation.verdict (recommendation report) = "GOOD"%string
  /\ Recommendation.color (recommendation report) = "blue"%string.
Proof.
  intros report Hnan.
  change (MonthlyNumbers.cashFlow (monthlyNumbers report))
    with (cashFlow_of Math_pow propertyData) in Hnan.
  apply is_nan_eq in Hnan.
  assert (Hroi : Metrics.roi (metrics report) = nan).
  { unfold report. rewrite roi_of_report, Hnan.
    change (nan * 12) with nan. rewrite nan_div. reflexivity. }
  unfold report in *. rewrite recommendation_of_report, Hroi, Hnan.
  repeat split.
Qed.

End Edges.

(** X4.  What a verdict tells: AVOID only for a cash flow below 0; MARGINAL
    only for a cash flow not below 0 that is below 100 or an roi below 5;
    EXCELLENT only for an roi of at least 10 with a cash flow of at least
    200, not below 100, and an roi not below 5; and no other verdict than
    these and GOOD is ever given. *)
Theorem verdict_tells_its_rule (monthlyCashFlow roi : float) :
  let v := Recommendation.verdict (getRecommendation monthlyCashFlow roi) in
  (v = "AVOID"%string -> (monthlyCashFlow <? 0) = true)
  /\ (v = "MARGINAL"%string ->
      (monthlyCashFlow <? 0) = false
      /\ ((monthlyCashFlow <? 100) = true \/ (roi <? 5) = true))
  /\ (v = "EXCELLENT"%string ->
      (10 <=? roi) = true /\ (200 <=? monthlyCashFlow) = true
      /\ (monthlyCashFlow <? 100) = false /\ (roi <? 5) = false)
  /\ (v = "GOOD"%string ->
      (monthlyCashFlow <? 100) = false /\ (roi <? 5) = false
      /\ ((10 <=? roi) = false \/ (200 <=? monthlyCashFlow) = false))
  /\ In v [ "AVOID"; "MARGINAL"; "GOOD"; "EXCELLENT" ]%string.
Proof.
  unfold getRecommendation.
  destruct (monthlyCashFlow <? 0) eqn:H1;
    destruct (monthlyCashFlow <? 100) eqn:H2;
    destruct (roi <? 5) eqn:H3;
    destruct (10 <=? roi) eqn:H4;
    destruct (200 <=? monthlyCashFlow) eqn:H5;
    cbn; repeat split; intros; try discriminate; auto 10.
Qed.

(** * More of the formulas in exact arithmetic *)

Section ExactFormulas.
Variable pow : Q -> Q -> Q.
#[local] Hint Extern 0 (Arith Q) => exact (Q_arith pow) : typeclass_instances.
Local Open Scope Q_scope.

(** X6.  The annual cash flow is the net operating income less twelve monthly
    mortgage payments. *)
Theorem exact_cashFlow_is_noi_less_debt_service (this : t Q) :
  getAnnualCashFlow this == getNOI this - 12 * getMonthlyMortgage this.
Proof.
  unfold getAnnualCashFlow, getMonthlyCashFlow, getMonthlyExpenses, getNOI.
  cbn [Expenses.total plus minus times divide lit Q_arith inject_Z].
  generalize (getMonthlyMortgage this). intros M.
  field.
Qed.

End ExactFormulas.

(** * Amortisation in exact arithmetic *)

Section ExactAmortisation.
#[local] Hint Extern 0 (Arith Q) => exact (Q_arith pow_exact) : typeclass_instances.
Local Open Scope Q_scope.

Lemma Qpower_succ (a : Q) (p : positive) :
  a ^ Zpos (Pos.succ p) == a ^ Zpos p * a.
Proof.
  rewrite Pos2Z.inj_succ. unfold Z.succ.
  rewrite Qpower_plus' by lia. rewrite Qpower_1_r. reflexivity.
Qed.

(** [(1 + r)^n * (1 - r * n) < 1] for a positive rate and [n >= 1]. *)
Lemma compound_bound (r : Q) (p : positive) :
  0 < r -> (1 + r) ^ Zpos p * (1 - r * inject_Z (Zpos p)) < 1.
Proof.
  intros Hr. induction p as [| p IH] using Pos.peano_ind.
  - rewrite Qpower_1_r. change (inject_Z 1) with 1.
    assert (0 < r * r) by (apply Qmult_lt_0_compat; assumption). lra.
  - rewrite Qpower_succ, Pos2Z.inj_succ. unfold Z.succ. rewrite inject_Z_plus.
    change (inject_Z 1) with 1.
    assert (Hq : 0 < inject_Z (Zpos p)) by reflexivity.
    assert (HA : 0 < (1 + r) ^ Zpos p) by (apply Qpower_0_lt; lra).
    revert IH Hq HA.
    generalize ((1 + r) ^ Zpos p). generalize (inject_Z (Zpos p)). intros q A IH Hq HA.
    assert (H1 : 0 < r * r * A) by (repeat apply Qmult_lt_0_compat; assumption).
    assert (H2 : 0 < r * r * A * q) by (repeat apply Qmult_lt_0_compat; assumption).
    lra.
Qed.

(** The amortised payment, for a positive rate. *)
Lemma amortised_payment (this : t Q) :
  0 < interestRate this ->
  getMonthlyMortgage this
  = getLoanAmount this
    * (interestRate this / 100 / 12
       * (1 + interestRate this / 100 / 12) ^ Qfloor (loanTerm this * 12))
    / ((1 + interestRate this / 100 / 12) ^ Qfloor (loanTerm this * 12) - 1).
Proof.
  intros Hrate. unfold getMonthlyMortgage.
  cbn [is0 plus minus times divide lit power Q_arith inject_Z].
  destruct (Qeq_bool (interestRate this / inject_Z 100 / inject_Z 12) 0) eqn:E.
  - apply Qeq_bool_eq in E. exfalso.
    assert (0 < interestRate this / inject_Z 100 / inject_Z 12)
      by (repeat apply Qlt_shift_div_l; try reflexivity; lra).
    lra.
  - reflexivity.
Qed.

(** X8.  For a loan at a positive rate over whole years, the monthly payment
    is more than a month's interest on the whole loan, and the payments
    add up to more than the loan. *)
Theorem exact_amortised_payment_covers_interest (this : t Q) (years : positive) :
  0 < getLoanAmount this ->
  0 < interestRate this ->
  loanTerm this == inject_Z (Zpos years) ->
  getLoanAmount this * (interestRate this / 100 / 12) < getMonthlyMortgage this
  /\ getLoanAmount this < getMonthlyMortgage this * (loanTerm this * 12).
Proof.
  intros HL Hrate Hterm.
  rewrite (amortised_payment this Hrate).
  assert (Hn : Qfloor (loanTerm this * 12) = Zpos (years * 12)).
  { rewrite Hterm. change 12 with (inject_Z 12).
    rewrite <- inject_Z_mult, Qfloor_Z. reflexivity. }
  rewrite Hn.
  assert (Hr : 0 < interestRate this / 100 / 12)
    by (repeat apply Qlt_shift_div_l; try reflexivity; lra).
  pose proof (compound_bound _ (years * 12) Hr) as Hbound.
  assert (HP : 1 < (1 + interestRate this / 100 / 12) ^ Zpos (years * 12))
    by (apply Qpower_1_lt; [lra | lia]).
  assert (Hterm' : loanTerm this * 12 == inject_Z (Zpos (years * 12))).
  { rewrite Hterm. change 12 with (inject_Z 12) at 1.
    rewrite <- inject_Z_mult. reflexivity. }
  rewrite Hterm'.
  revert Hbound HP.
  generalize ((1 + interestRate this / 100 / 12) ^ Zpos (years * 12)).
  assert (Hq : 0 < inject_Z (Zpos (years * 12))) by reflexivity.
  revert Hr Hq.
  generalize (inject_Z (Zpos (years * 12))). generalize (interestRate this / 100 / 12).
  revert HL. generalize (getLoanAmount this).
  intros L HL r n Hr Hn' P Hbound HP.
  assert (HLr : 0 < L * r) by (apply Qmult_lt_0_compat; assumption).
  split.
  - apply Qlt_shift_div_l; [lra |].
    setoid_replace (L * (r * P)) with (L * r * (P - 1) + L * r) using relation Qeq by ring.
    lra.
  - setoid_replace (L * (r * P) / (P - 1) * n) with (L * (r * P * n) / (P - 1))
      using relation Qeq by (field; lra).
    apply Qlt_shift_div_l; [lra |].
    assert (H : 0 < L * (1 - P * (1 - r * n))) by (apply Qmult_lt_0_compat; lra).
    setoid_replace (L * (r * P * n)) with (L * (P - 1) + L * (1 - P * (1 - r * n)))
      using relation Qeq by ring.
    lra.
Qed.

End ExactAmortisation.

(** The amortised payment and the balance of the loan. *)

Section ExactRepayment.
#[local] Hint Extern 0 (Arith Q) => exact (Q_arith pow_exact) : typeclass_instances.
Local Open Scope Q_scope.

(** The balance in closed form, times the rate. *)
Lemma balance_closed_form (L r P : Q) (n : nat) :
  0 < r ->
  balance_after L r P n * r
  == L * r * (1 + r) ^ Z.of_nat n - P * ((1 + r) ^ Z.of_nat n - 1).
Proof.
  intros Hr. induction n as [| n IH].
  - cbn [balance_after]. change ((1 + r) ^ Z.of_nat 0) with 1. ring.
  - cbn [balance_after]. rewrite Nat2Z.inj_succ. unfold Z.succ.
    rewrite Qpower_plus by lra. rewrite Qpower_1_r.
    revert IH. generalize ((1 + r) ^ Z.of_nat n) (balance_after L r P n). intros A B IH.
    setoid_replace ((B * (1 + r) - P) * r) with (B * r * (1 + r) - P * r)
      using relation Qeq by ring.
    rewrite IH. ring.
Qed.

(** X19.  For a loan at a positive rate over whole years, the monthly
    payment pays the loan off exactly: after the last of the payments
    the balance is zero. *)
Theorem exact_amortised_payment_repays_loan (this : t Q) (years : positive) :
  0 < interestRate this ->
  loanTerm this == inject_Z (Zpos years) ->
  balance_after (getLoanAmount this) (interestRate this / 100 / 12)
    (getMonthlyMortgage this) (Pos.to_nat (years * 12)) == 0.
Proof.
  intros Hrate Hterm.
  assert (Hr : 0 < interestRate this / 100 / 12)
    by (repeat apply Qlt_shift_div_l; try reflexivity; lra).
  assert (Hn : Qfloor (loanTerm this * 12) = Zpos (years * 12)).
  { rewrite Hterm. change 12 with (inject_Z 12).
    rewrite <- inject_Z_mult, Qfloor_Z. reflexivity. }
  assert (HP : 1 < (1 + interestRate this / 100 / 12) ^ Zpos (years * 12))
    by (apply Qpower_1_lt; [lra | lia]).
  pose proof (balance_closed_form (getLoanAmount this) (interestRate this / 100 / 12)
                (getMonthlyMortgage this) (Pos.to_nat (years * 12)) Hr) as H.
  rewrite positive_nat_Z in H.
  rewrite (amortised_payment this Hrate) in H at 2. rewrite Hn in H.
  revert H HP Hr.
  generalize (balance_after (getLoanAmount this) (interestRate this / 100 / 12)
                (getMonthlyMortgage this) (Pos.to_nat (years * 12))).
  generalize ((1 + interestRate this / 100 / 12) ^ Zpos (years * 12)).
  generalize (interestRate this / 100 / 12). generalize (getLoanAmount this).
  intros L r A B H HP Hr.
  assert (E : B * r == 0) by (rewrite H; field; lra).
  apply Qmult_integral in E. destruct E as [E | E]; [exact E | lra].
Qed.

End ExactRepayment.

(** * The routes and the tools *)

(** The constructor reads the eleven parameters only. *)
Lemma constructor_reads_parameters (d1 d2 : object) :
  Forall (fun k => get d1 k = get d2 k) parameter_names ->
  constructor d1 = constructor d2.
Proof.
  intros Hagree.
  assert (Hget : forall k, In k parameter_names -> get d1 k = get d2 k)
    by (apply List.Forall_forall; exact Hagree).
  unfold constructor. rewrite !Hget by (cbn; tauto). reflexivity.
Qed.

Lemma get_delete_ne (o : object) (j k : string) : j <> k -> get (delete j o) k = get o k.
Proof. intros H. unfold get. rewrite lookup_delete_ne by exact H. reflexivity. Qed.

Lemma get_insert_ne (o : object) (j k : string) (v : value) :
  j <> k -> get (<[j := v]> o) k = get o k.
Proof. intros H. unfold get. rewrite lookup_insert_ne by exact H. reflexivity. Qed.

Lemma or_value_truthy (v : value) (x : float) :
  ToBoolean x = true -> Routes.truthy (Routes.or_value v (VNumber x)) = true.
Proof.
  intros Hx. unfold Routes.or_value.
  destruct (Routes.truthy v) eqn:Hv; [exact Hv | exact Hx].
Qed.

Section RoutesAndTools.
Variable Math_pow : float -> float -> float.
#[local] Hint Extern 0 (Arith float) => exact (float_arith Math_pow) : typeclass_instances.

(** X9.  POST /save binds as many values as its statement has placeholders;
    the four metrics it stores are those of the report POST /analyze
    returns for the same body; and the six parameters with a nonzero
    default are stored truthy: never NULL, 0, NaN or the empty string. *)
Theorem save_stores_the_report (userId : value) (body : object) :
  let row := Routes.save_parameters Math_pow userId body in
  let report := analyze Math_pow body in
  length row = Routes.placeholders Routes.insert_property
  /\ drop 16 row
     = [ VNumber (MonthlyNumbers.cashFlow (monthlyNumbers report));
         VNumber (Metrics.roi (metrics report));
         VNumber (Metrics.capRate (metrics report));
         VNumber (Metrics.cashOnCashReturn (metrics report)) ]
  /\ Forall (fun i => exists v, row !! i = Some v /\ Routes.truthy v = true)
            [6; 7; 8; 13; 14; 15]%nat.
Proof.
  intros row report.
  assert (Hsame : constructor
                    (delete "zipCode" (delete "state" (delete "city" (delete "address" body))))
                  = constructor body).
  { apply constructor_reads_parameters.
    repeat (apply List.Forall_cons;
            [rewrite !get_delete_ne by discriminate; reflexivity |]).
    apply List.Forall_nil. }
  split; [reflexivity |]. split.
  - unfold row, Routes.save_parameters. cbv zeta. rewrite Hsame. reflexivity.
  - unfold row, Routes.save_parameters. cbv zeta.
    repeat (apply List.Forall_cons;
            [eexists; split; [reflexivity | apply or_value_truthy; reflexivity] |]).
    apply List.Forall_nil.
Qed.

(** A destructuring default of [analyzeProperty] changes nothing: the
    constructor would have used the same default. *)
Lemma default_is_redundant (parse : value -> float) (dflt : float) (params : object)
    (k : string) :
  parse (VNumber dflt) = dflt ->
  ToBoolean (parse VUndefined) = false ->
  or_else (parse (MCP.with_default params k (VNumber dflt))) dflt
  = or_else (parse (get params k)) dflt.
Proof.
  intros Hd Hu. unfold MCP.with_default.
  destruct (get params k); try reflexivity.
  rewrite Hd, (or_else_falsy _ _ Hu). unfold or_else.
  destruct (ToBoolean dflt); reflexivity.
Qed.

(** X10.  The MCP tool analyze_property reports the financial metrics that
    POST /analyze reports for the same parameters. *)
Theorem mcp_metrics_are_route_metrics (params : object) :
  MCP.financialMetrics Math_pow params = analyze Math_pow params.
Proof.
  unfold MCP.financialMetrics, analyze.
  apply (f_equal (getFullAnalysis Math_pow)).
  unfold constructor, MCP.calculator_input. cbn [list_to_map foldr fst snd uncurry].
  repeat first [rewrite get_insert_eq | rewrite get_insert_ne by discriminate].
  rewrite !default_is_redundant by reflexivity.
  reflexivity.
Qed.

End RoutesAndTools.

(** * More on the constructor and on what the metrics read *)

Lemma no_nan_row (x a dflt : float) :
  x = or_else a dflt ->
  is_nan dflt = false ->
  (is_zero dflt = true -> dflt = 0) ->
  is_nan x = false /\ (is_zero x = true -> x = 0).
Proof.
  intros -> Hn Hz. unfold or_else.
  destruct (ToBoolean a) eqn:Ha.
  - apply ToBoolean_true in Ha. destruct Ha as [H0 H1].
    split; [exact H1 |]. rewrite H0. discriminate.
  - split; assumption.
Qed.

(** X1.  No field of a constructed instance is NaN, and a field that is zero
    is [+0]: NaN and both zeros are falsy, so [||] replaces them by the
    default. *)
Theorem constructor_holds_no_nan (propertyData : object) :
  Forall (fun '(k, parse, dflt, field) =>
            is_nan (field (constructor propertyData)) = false
            /\ (is_zero (field (constructor propertyData)) = true ->
                field (constructor propertyData) = 0))
         parameters.
Proof.
  unfold parameters.
  repeat (apply List.Forall_cons;
          [eapply no_nan_row; [reflexivity | reflexivity | try discriminate; reflexivity] |]).
  apply List.Forall_nil.
Qed.

Section Operating.
Variable Math_pow : float -> float -> float.
#[local] Hint Extern 0 (Arith float) => exact (float_arith Math_pow) : typeclass_instances.

(** X11.  Financing does not enter the net operating income or the cap rate:
    two bodies that agree on rent, taxes, insurance, HOA fees and the
    three percentages have the same noi, whatever their down payment,
    rate and term; if they also agree on the price they have the same
    capRate. *)
Theorem noi_ignores_financing (d1 d2 : object) :
  Forall (fun k => get d1 k = get d2 k) operating_parameters ->
  AnnualNumbers.noi (annualNumbers (analyze Math_pow d1))
  = AnnualNumbers.noi (annualNumbers (analyze Math_pow d2))
  /\ (get d1 "purchasePrice" = get d2 "purchasePrice" ->
      Metrics.capRate (metrics (analyze Math_pow d1))
      = Metrics.capRate (metrics (analyze Math_pow d2))).
Proof.
  intros Hagree.
  assert (Hget : forall k, In k operating_parameters -> get d1 k = get d2 k)
    by (apply List.Forall_forall; exact Hagree).
  assert (Hnoi : getNOI (constructor d1) = getNOI (constructor d2)).
  { unfold getNOI, constructor.
    cbn [monthlyRent propertyTax insurance hoaFees maintenancePercent vacancyPercent
         propertyManagementPercent].
    rewrite !Hget by (cbn; tauto). reflexivity. }
  split; [exact Hnoi |].
  intros Hprice.
  assert (Hp : purchasePrice (constructor d1) = purchasePrice (constructor d2)).
  { unfold constructor. cbn [purchasePrice]. rewrite Hprice. reflexivity. }
  unfold analyze, getFullAnalysis, getCapRate. cbn [metrics Metrics.capRate].
  rewrite Hnoi, Hp. reflexivity.
Qed.

End Operating.

(** * Instances of the further theorems *)

Lemma no_price_no_finite_metric_witness :
  let m := metrics (analyze pow_integral noPriceProperty) in
  ToBoolean (parseFloat (get noPriceProperty "purchasePrice")) = false
  /\ is_finite (Metrics.capRate m) = false
  /\ is_finite (Metrics.cashOnCashReturn m) = false
  /\ is_finite (Metrics.roi m) = false.
Proof.
  intros m.
  assert (H : ToBoolean (parseFloat (get noPriceProperty "purchasePrice")) = false)
    by (vm_compute; reflexivity).
  split; [exact H |].
  apply (no_price_no_finite_metric pow_integral noPriceProperty H).
Defined.

Lemma nan_cashFlow_is_rated_good_witness :
  let report := analyze pow_integral infinitePriceProperty in
  is_nan (MonthlyNumbers.cashFlow (monthlyNumbers report)) = true
  /\ Recommendation.verdict (recommendation report) = "GOOD"%string.
Proof.
  intros report.
  assert (H : is_nan (MonthlyNumbers.cashFlow (monthlyNumbers report)) = true)
    by (vm_compute; reflexivity).
  split; [exact H |].
  apply (nan_cashFlow_is_rated_good pow_integral infinitePriceProperty H).
Defined.

Lemma verdict_tells_its_rule_witness :
  Recommendation.verdict (getRecommendation 250 12) = "EXCELLENT"%string
  /\ (10 <=? 12) = true /\ (200 <=? 250) = true.
Proof.
  assert (H : Recommendation.verdict (getRecommendation 250 12) = "EXCELLENT"%string)
    by reflexivity.
  split; [exact H |].
  destruct (verdict_tells_its_rule 250 12) as (_ & _ & Hexcellent & _).
  destruct (Hexcellent H) as (H1 & H2 & _). split; assumption.
Defined.

Lemma exact_amortised_payment_covers_interest_witness :
  (0 < getLoanAmount (H := Q_arith pow_exact) testCalculatorQ)%Q
  /\ (0 < interestRate testCalculatorQ)%Q
  /\ (loanTerm testCalculatorQ == inject_Z 30)%Q
  /\ (getLoanAmount (H := Q_arith pow_exact) testCalculatorQ
      < getMonthlyMortgage (H := Q_arith pow_exact) testCalculatorQ
        * (loanTerm testCalculatorQ * 12))%Q.
Proof.
  assert (H1 : (0 < getLoanAmount (H := Q_arith pow_exact) testCalculatorQ)%Q)
    by reflexivity.
  assert (H2 : (0 < interestRate testCalculatorQ)%Q) by reflexivity.
  assert (H3 : (loanTerm testCalculatorQ == inject_Z 30)%Q) by reflexivity.
  split; [exact H1 |]. split; [exact H2 |]. split; [exact H3 |].
  apply (exact_amortised_payment_covers_interest testCalculatorQ 30 H1 H2 H3).
Defined.

Lemma noi_ignores_financing_witness :
  Forall (fun k => get testProperty k = get oneYearProperty k) operating_parameters
  /\ AnnualNumbers.noi (annualNumbers (analyze pow_integral testProperty))
     = AnnualNumbers.noi (annualNumbers (analyze pow_integral oneYearProperty)).
Proof.
  assert (H : Forall (fun k => get testProperty k = get oneYearProperty k)
                     operating_parameters)
    by (repeat (apply List.Forall_cons; [vm_compute; reflexivity |]);
        apply List.Forall_nil).
  split; [exact H |].
  apply (noi_ignores_financing pow_integral testProperty oneYearProperty H).
Defined.

Lemma constructor_holds_no_nan_witness :
  is_zero (hoaFees (constructor testProperty)) = true
  /\ hoaFees (constructor testProperty) = 0.
Proof.
  assert (H : is_zero (hoaFees (constructor testProperty)) = true) by reflexivity.
  split; [exact H |].
  pose proof (Forall_lookup_1 _ _ 7%nat _
                (constructor_holds_no_nan testProperty) eq_refl) as [_ Hz].
  apply Hz. exact H.
Defined.


(** * The order of doubles *)

Section FloatOrder.
Local Close Scope float_scope.

(** Rounding never loses a positive number. *)

Lemma digits2_pos_bound (p : positive) :
  2 ^ (Zpos (digits2_pos p) - 1) <= Zpos p < 2 ^ Zpos (digits2_pos p).
Proof.
  induction p as [p IH | p IH |]; cbn [digits2_pos].
  - rewrite Pos2Z.inj_succ. change (Zpos p~1) with (2 * Zpos p + 1).
    replace (Z.succ (Zpos (digits2_pos p)) - 1) with (Z.succ (Zpos (digits2_pos p) - 1)) by lia.
    rewrite !Z.pow_succ_r by lia.
    revert IH. generalize (2 ^ (Zpos (digits2_pos p) - 1)) (2 ^ Zpos (digits2_pos p)). lia.
  - rewrite Pos2Z.inj_succ. change (Zpos p~0) with (2 * Zpos p).
    replace (Z.succ (Zpos (digits2_pos p)) - 1) with (Z.succ (Zpos (digits2_pos p) - 1)) by lia.
    rewrite !Z.pow_succ_r by lia.
    revert IH. generalize (2 ^ (Zpos (digits2_pos p) - 1)) (2 ^ Zpos (digits2_pos p)). lia.
  - cbn. lia.
Qed.

Lemma pow2_pos (n : Z) : 0 <= n -> 0 < 2 ^ n.
Proof. intros H. apply Z.pow_pos_nonneg; lia. Qed.

Lemma shr_1_m (mrs : shr_record) :
  0 <= shr_m mrs -> shr_m (shr_1 mrs) = shr_m mrs / 2.
Proof.
  intros H. rewrite <- Z.div2_div.
  destruct mrs as [m r s]. cbn [shr_m] in *.
  destruct m as [| [p | p |] | p]; try reflexivity; lia.
Qed.

Lemma iter_shr_1_m (n : positive) (mrs : shr_record) :
  0 <= shr_m mrs ->
  shr_m (SpecFloat.iter_pos shr_1 n mrs) = shr_m mrs / 2 ^ Zpos n.
Proof.
  revert mrs. induction n as [n IH | n IH |]; intros mrs H; cbn [SpecFloat.iter_pos].
  - assert (H1 : 0 <= shr_m (shr_1 mrs)) by (rewrite shr_1_m by exact H; apply Z.div_pos; lia).
    assert (H2 : 0 <= shr_m (SpecFloat.iter_pos shr_1 n (shr_1 mrs)))
      by (rewrite IH by exact H1; apply Z.div_pos; [exact H1 | apply pow2_pos; lia]).
    rewrite IH by exact H2. rewrite IH by exact H1. rewrite shr_1_m by exact H.
    rewrite !Z.div_div by (try apply pow2_pos; lia). f_equal.
    change (Zpos n~1) with (2 * Zpos n + 1). replace (2 * Zpos n + 1) with (1 + Zpos n + Zpos n) by lia.
    rewrite !Z.pow_add_r by lia. lia.
  - assert (H2 : 0 <= shr_m (SpecFloat.iter_pos shr_1 n mrs))
      by (rewrite IH by exact H; apply Z.div_pos; [exact H | apply pow2_pos; lia]).
    rewrite IH by exact H2. rewrite IH by exact H.
    rewrite !Z.div_div by (try apply pow2_pos; lia). f_equal.
    change (Zpos n~0) with (2 * Zpos n). replace (2 * Zpos n) with (Zpos n + Zpos n) by lia.
    rewrite !Z.pow_add_r by lia. lia.
  - rewrite shr_1_m by exact H. reflexivity.
Qed.


(** Shifting a positive mantissa at an exponent not below [emin64] to its
    format keeps it positive. *)
Lemma shr_fexp_positive (m : positive) (e : Z) :
  emin64 <= e ->
  0 < shr_m (fst (shr_fexp prec emax (Zpos m) e loc_Exact))
  /\ emin64 <= snd (shr_fexp prec emax (Zpos m) e loc_Exact).
Proof.
  intros He. unfold shr_fexp, shr, shr_record_of_loc, Zdigits2, fexp. fold emin64.
  pose proof (digits2_pos_bound m) as [Hlo _].
  destruct (Z.max (Zpos (digits2_pos m) + e - prec) emin64 - e) as [| n | n] eqn:En;
    cbn [fst snd shr_m]; try (split; lia).
  rewrite iter_shr_1_m by (cbn; lia). cbn [shr_m]. split; [| lia].
  apply Z.div_str_pos. split; [apply pow2_pos; lia |].
  apply Z.le_trans with (2 ^ (Zpos (digits2_pos m) - 1)); [| exact Hlo].
  apply Z.pow_le_mono_r; [lia |].
  pose proof (eq_refl : prec = 53) as Hp.
  lia.
Qed.

Lemma round_nearest_even_ge (m : Z) (l : location) : m <= round_nearest_even m l.
Proof. unfold round_nearest_even. destruct l as [| []]; try destruct (Z.even m); lia. Qed.


Lemma binary_round_aux_positive (s : bool) (m : positive) (e : Z) :
  emin64 <= e -> signed_nonzero s (binary_round_aux prec emax s (Zpos m) e loc_Exact).
Proof.
  intros He. unfold binary_round_aux.
  pose proof (shr_fexp_positive m e He) as [Hm1 He1].
  destruct (shr_fexp prec emax (Zpos m) e loc_Exact) as [mrs' e'].
  cbn [fst snd] in Hm1, He1.
  pose proof (round_nearest_even_ge (shr_m mrs') (loc_of_shr_record mrs')) as Hr.
  destruct (round_nearest_even (shr_m mrs') (loc_of_shr_record mrs')) as [| m1 | m1]; try lia.
  pose proof (shr_fexp_positive m1 e' He1) as [Hm2 _].
  destruct (shr_fexp prec emax (Zpos m1) e' loc_Exact) as [mrs'' e''].
  cbn [fst] in Hm2.
  destruct (shr_m mrs'') as [| m2 | m2]; try lia.
  destruct (e'' <=? emax - prec); [left; eauto | right; reflexivity].
Qed.

Lemma binary_round_positive (s : bool) (m : positive) (e : Z) :
  emin64 <= e -> signed_nonzero s (binary_round prec emax s m e).
Proof.
  intros He. unfold binary_round.
  destruct (shl_align m e (fexp prec emax (Zpos (digits2_pos m) + e))) as [mz ez] eqn:E.
  apply binary_round_aux_positive.
  unfold shl_align in E.
  assert (Hf : emin64 <= fexp prec emax (Zpos (digits2_pos m) + e))
    by (unfold fexp; fold emin64; lia).
  set (f := fexp prec emax (Zpos (digits2_pos m) + e)) in *. clearbody f.
  destruct (f - e); inversion E; subst; lia.
Qed.


(** * Doubles in their canonical representation *)


Lemma Prim2SF_canonical (x : float) : canonical (Prim2SF x).
Proof.
  pose proof (Prim2SF_valid x) as H. unfold canonical.
  destruct (Prim2SF x) as [s | s | | s m e]; try exact I.
  cbn [valid_binary] in H. unfold bounded, canonical_mantissa, fexp in H. fold emin64 in H.
  apply andb_prop in H as [H _]. apply Z.eqb_eq in H. exact H.
Qed.

Lemma shl_align_value (m : positive) (e e' : Z) :
  e' <= e -> Zpos (fst (shl_align m e e')) = Zpos m * 2 ^ (e - e').
Proof.
  intros H. unfold shl_align. destruct (e' - e) as [| d | d] eqn:E; cbn [fst].
  - replace (e - e') with 0 by lia. lia.
  - lia.
  - change (Pos.iter xO m d) with (shift_pos d m). rewrite shift_pos_correct.
    replace (e - e') with (Zpos d) by lia. change (2 ^ Zpos d) with (Z.pow_pos 2 d). lia.
Qed.

(** Canonical numbers of one sign compare by exponent, then mantissa. *)
Lemma canonical_compare (m1 : positive) (e1 : Z) (m2 : positive) (e2 : Z) :
  Z.max (Zpos (digits2_pos m1) + e1 - prec) emin64 = e1 ->
  Z.max (Zpos (digits2_pos m2) + e2 - prec) emin64 = e2 ->
  match e1 ?= e2 with Lt => Lt | Gt => Gt | Eq => Pos.compare_cont Eq m1 m2 end
  = (Zpos m1 * 2 ^ (e1 - Z.min e1 e2) ?= Zpos m2 * 2 ^ (e2 - Z.min e1 e2)).
Proof.
  intros H1 H2.
  pose proof (digits2_pos_bound m1) as [L1 U1].
  pose proof (digits2_pos_bound m2) as [L2 U2].
  pose proof (eq_refl : prec = 53) as Hp.
  destruct (Z.compare_spec e1 e2) as [E | E | E].
  - subst e2. rewrite Z.min_id, Z.sub_diag. cbn [Z.pow]. rewrite !Z.mul_1_r. reflexivity.
  - symmetry. apply Z.compare_lt_iff.
    rewrite Z.min_l by lia. rewrite Z.sub_diag. cbn [Z.pow]. rewrite Z.mul_1_r.
    assert (D2 : Zpos (digits2_pos m2) = 53) by lia.
    assert (D1 : Zpos (digits2_pos m1) <= 53) by lia.
    rewrite D2 in L2.
    assert (U : Zpos m1 < 2 ^ 53)
      by (eapply Z.lt_le_trans; [exact U1 | apply Z.pow_le_mono_r; lia]).
    assert (K : 2 ^ 1 <= 2 ^ (e2 - e1)) by (apply Z.pow_le_mono_r; lia).
    change (2 ^ (53 - 1)) with 4503599627370496 in L2.
    change (2 ^ 53) with 9007199254740992 in U. change (2 ^ 1) with 2 in K.
    revert K. generalize (2 ^ (e2 - e1)). intros k K. nia.
  - symmetry. apply Z.compare_gt_iff.
    rewrite Z.min_r by lia. rewrite Z.sub_diag. cbn [Z.pow]. rewrite Z.mul_1_r.
    assert (D1 : Zpos (digits2_pos m1) = 53) by lia.
    assert (D2 : Zpos (digits2_pos m2) <= 53) by lia.
    rewrite D1 in L1.
    assert (U : Zpos m2 < 2 ^ 53)
      by (eapply Z.lt_le_trans; [exact U2 | apply Z.pow_le_mono_r; lia]).
    assert (K : 2 ^ 1 <= 2 ^ (e1 - e2)) by (apply Z.pow_le_mono_r; lia).
    change (2 ^ (53 - 1)) with 4503599627370496 in L1.
    change (2 ^ 53) with 9007199254740992 in U. change (2 ^ 1) with 2 in K.
    revert K. generalize (2 ^ (e1 - e2)). intros k K. nia.
Qed.

(** The sign of a rounded integer multiple of [2 ^ e], [emin64 <= e]. *)
Lemma normalize_is_positive (D e : Z) :
  emin64 <= e ->
  SFltb (S754_zero false) (binary_normalize prec emax D e false) = (0 <? D).
Proof.
  intros He. destruct D as [| p | p]; cbn [binary_normalize]; try reflexivity.
  - destruct (binary_round_positive false p e He) as [(m' & e' & ->) | ->]; reflexivity.
  - destruct (binary_round_positive true p e He) as [(m' & e' & ->) | ->]; reflexivity.
Qed.

Lemma canonical_emin (s : bool) (m : positive) (e : Z) :
  canonical (S754_finite s m e) -> emin64 <= e.
Proof. cbn. lia. Qed.

(** The difference [y - x] is positive exactly when [x < y]. *)
Lemma SFsub_is_positive (x y : spec_float) :
  canonical x -> canonical y -> x <> S754_nan -> y <> S754_nan ->
  SFltb (S754_zero false) (SFsub prec emax y x) = SFltb x y.
Proof.
  intros Cx Cy Nx Ny.
  destruct x as [sx | sx | | sx mx ex]; destruct y as [sy | sy | | sy my ey];
    try congruence; try (destruct sx; try destruct sy; reflexivity);
    try (destruct sy; reflexivity).
  pose proof (canonical_emin _ _ _ Cx) as Ex. pose proof (canonical_emin _ _ _ Cy) as Ey.
  cbn [SFsub]. rewrite normalize_is_positive by lia.
  rewrite !shl_align_value by lia.
  unfold SFltb. cbn [SFcompare]. cbn [canonical] in Cx, Cy.
  pose proof (canonical_compare mx ex my ey Cx Cy) as Hc.
  rewrite (Z.min_comm ey ex).
  assert (P1 : 0 < Zpos mx * 2 ^ (ex - Z.min ex ey))
    by (apply Z.mul_pos_pos; [lia | apply pow2_pos; lia]).
  assert (P2 : 0 < Zpos my * 2 ^ (ey - Z.min ex ey))
    by (apply Z.mul_pos_pos; [lia | apply pow2_pos; lia]).
  revert Hc P1 P2.
  generalize (Zpos mx * 2 ^ (ex - Z.min ex ey)) (Zpos my * 2 ^ (ey - Z.min ex ey)).
  intros a b Hc P1 P2.
  destruct sx, sy; cbn [cond_Zopp].
  - revert Hc. destruct (ex ?= ey); intros Hc; rewrite ?Hc;
      destruct (Z.compare_spec a b); cbn [CompOpp]; try discriminate Hc; lia.
  - lia.
  - lia.
  - rewrite Hc. destruct (Z.compare_spec a b); lia.
Qed.

Lemma normalize_is_negative (D e : Z) :
  emin64 <= e ->
  SFltb (binary_normalize prec emax D e false) (S754_zero false) = (D <? 0).
Proof.
  intros He. destruct D as [| p | p]; cbn [binary_normalize]; try reflexivity.
  - destruct (binary_round_positive false p e He) as [(m' & e' & ->) | ->]; reflexivity.
  - destruct (binary_round_positive true p e He) as [(m' & e' & ->) | ->]; reflexivity.
Qed.

(** The difference [y - x] is negative exactly when [y < x]. *)
Lemma SFsub_is_negative (x y : spec_float) :
  canonical x -> canonical y -> x <> S754_nan -> y <> S754_nan ->
  SFltb (SFsub prec emax y x) (S754_zero false) = SFltb y x.
Proof.
  intros Cx Cy Nx Ny.
  destruct x as [sx | sx | | sx mx ex]; destruct y as [sy | sy | | sy my ey];
    try congruence; try (destruct sx; try destruct sy; reflexivity);
    try (destruct sy; reflexivity).
  pose proof (canonical_emin _ _ _ Cx) as Ex. pose proof (canonical_emin _ _ _ Cy) as Ey.
  cbn [SFsub]. rewrite normalize_is_negative by lia.
  rewrite !shl_align_value by lia.
  unfold SFltb. cbn [SFcompare]. cbn [canonical] in Cx, Cy.
  pose proof (canonical_compare my ey mx ex Cy Cx) as Hc.
  assert (P1 : 0 < Zpos mx * 2 ^ (ex - Z.min ey ex))
    by (apply Z.mul_pos_pos; [lia | apply pow2_pos; lia]).
  assert (P2 : 0 < Zpos my * 2 ^ (ey - Z.min ey ex))
    by (apply Z.mul_pos_pos; [lia | apply pow2_pos; lia]).
  revert Hc P1 P2.
  generalize (Zpos mx * 2 ^ (ex - Z.min ey ex)) (Zpos my * 2 ^ (ey - Z.min ey ex)).
  intros a b Hc P1 P2.
  destruct sx, sy; cbn [cond_Zopp].
  - revert Hc. destruct (ey ?= ex); intros Hc; rewrite ?Hc;
      destruct (Z.compare_spec b a); cbn [CompOpp]; try discriminate Hc; lia.
  - lia.
  - lia.
  - rewrite Hc. destruct (Z.compare_spec b a); lia.
Qed.

Lemma not_nan_spec (x : float) : is_nan x = false -> Prim2SF x <> S754_nan.
Proof.
  unfold is_nan. rewrite FloatAxioms.eqb_spec. intros H E. rewrite E in H. discriminate H.
Qed.

Lemma sub_is_positive (x y : float) :
  is_nan x = false -> is_nan y = false -> (0 <? y - x)%float = (x <? y)%float.
Proof.
  intros Hx Hy. rewrite !ltb_spec, sub_spec. change (Prim2SF 0) with (S754_zero false).
  apply SFsub_is_positive; auto using Prim2SF_canonical, not_nan_spec.
Qed.

Lemma sub_is_negative (x y : float) :
  is_nan x = false -> is_nan y = false -> (y - x <? 0)%float = (y <? x)%float.
Proof.
  intros Hx Hy. rewrite !ltb_spec, sub_spec. change (Prim2SF 0) with (S754_zero false).
  apply SFsub_is_negative; auto using Prim2SF_canonical, not_nan_spec.
Qed.

(** * The order of doubles *)



Lemma SFcompare_key (x y : spec_float) :
  x <> S754_nan -> y <> S754_nan ->
  match SFcompare x y with
  | Some Lt => lt3 (key x) (key y)
  | Some Eq => key x = key y
  | Some Gt => lt3 (key y) (key x)
  | None => False
  end.
Proof.
  intros Nx Ny. unfold lt3.
  destruct x as [sx | sx | | sx mx ex]; destruct y as [sy | sy | | sy my ey];
    try congruence; try destruct sx; try destruct sy; cbn;
    try first [reflexivity | lia].
  all: change (Pos.compare_cont Eq mx my) with (Pos.compare mx my).
  all: destruct (Z.compare_spec ex ey); cbn; try lia.
  all: destruct (Pos.compare_spec mx my); cbn; try lia.
  all: subst; reflexivity.
Qed.


End FloatOrder.

(** * The order on the keys *)

Section Keys.
Local Close Scope float_scope.

Lemma lt3_irrefl (a : Z * Z * Z) : ~ lt3 a a.
Proof. unfold lt3. lia. Qed.

Lemma lt3_asym (a b : Z * Z * Z) : lt3 a b -> ~ lt3 b a.
Proof. unfold lt3. lia. Qed.

Lemma lt3_trans (a b c : Z * Z * Z) : lt3 a b -> lt3 b c -> lt3 a c.
Proof. unfold lt3. lia. Qed.

Lemma lt3_total (a b : Z * Z * Z) : ~ lt3 a b -> ~ lt3 b a -> a = b.
Proof.
  destruct a as [[a1 a2] a3], b as [[b1 b2] b3]. unfold lt3. cbn [fst snd].
  intros H1 H2. repeat f_equal; lia.
Qed.

(** Not being below is transitive. *)
Lemma lt3_negative_trans (a b c : Z * Z * Z) : ~ lt3 a b -> ~ lt3 b c -> ~ lt3 a c.
Proof. unfold lt3. lia. Qed.

End Keys.

Lemma is_nan_spec (x : float) : is_nan x = true -> Prim2SF x = S754_nan.
Proof. intros H. rewrite (is_nan_eq x H). reflexivity. Qed.

(** The three comparisons of doubles, read on the keys. *)
Lemma compare_fkey (x y : float) :
  is_nan x = false -> is_nan y = false ->
  ((x <? y) = true <-> lt3 (fkey x) (fkey y))
  /\ ((x <=? y) = true <-> ~ lt3 (fkey y) (fkey x))
  /\ ((x =? y) = true <-> fkey x = fkey y).
Proof.
  intros Hx Hy. rewrite ltb_spec, leb_spec, FloatAxioms.eqb_spec.
  unfold SFltb, SFleb, SFeqb, fkey.
  pose proof (SFcompare_key (Prim2SF x) (Prim2SF y) (not_nan_spec x Hx) (not_nan_spec y Hy))
    as H.
  destruct (SFcompare (Prim2SF x) (Prim2SF y)) as [[| |] |]; [| | | destruct H].
  - rewrite H. pose proof (lt3_irrefl (key (Prim2SF y))). intuition congruence.
  - pose proof (lt3_asym _ _ H). pose proof (lt3_irrefl (key (Prim2SF y))).
    repeat split; try tauto; try discriminate.
    intros E. rewrite E in H. tauto.
  - pose proof (lt3_asym _ _ H). pose proof (lt3_irrefl (key (Prim2SF y))).
    repeat split; try tauto; try discriminate.
    intros E. rewrite E in H. tauto.
Qed.

(** A comparison that holds has no NaN operand. *)
Lemma ltb_not_nan (x y : float) : (x <? y) = true -> is_nan x = false /\ is_nan y = false.
Proof.
  rewrite ltb_spec. intros H.
  split; apply not_true_is_false; intros E; apply is_nan_spec in E; rewrite E in H.
  - discriminate H.
  - unfold SFltb in H. destruct (Prim2SF x) as [[] | [] | | [] ? ?]; discriminate H.
Qed.

Lemma leb_not_nan (x y : float) : (x <=? y) = true -> is_nan x = false /\ is_nan y = false.
Proof.
  rewrite leb_spec. intros H.
  split; apply not_true_is_false; intros E; apply is_nan_spec in E; rewrite E in H.
  - discriminate H.
  - unfold SFleb in H. destruct (Prim2SF x) as [[] | [] | | [] ? ?]; discriminate H.
Qed.

Lemma eqb_not_nan (x y : float) : (x =? y) = true -> is_nan x = false /\ is_nan y = false.
Proof.
  rewrite FloatAxioms.eqb_spec. intros H.
  split; apply not_true_is_false; intros E; apply is_nan_spec in E; rewrite E in H.
  - discriminate H.
  - unfold SFeqb in H. destruct (Prim2SF x) as [[] | [] | | [] ? ?]; discriminate H.
Qed.

Lemma leb_trans (x y z : float) :
  (x <=? y) = true -> (y <=? z) = true -> (x <=? z) = true.
Proof.
  intros H1 H2.
  destruct (leb_not_nan _ _ H1) as [Nx Ny]. destruct (leb_not_nan _ _ H2) as [_ Nz].
  apply (compare_fkey x y Nx Ny) in H1. apply (compare_fkey y z Ny Nz) in H2.
  apply (compare_fkey x z Nx Nz). eauto using lt3_negative_trans.
Qed.

(** Of two numbers, neither NaN, the first is below the second or the
    second is at most the first. *)
Lemma ltb_false_leb (x y : float) :
  is_nan x = false -> is_nan y = false -> (x <? y) = false -> (y <=? x) = true.
Proof.
  intros Nx Ny H. apply (compare_fkey y x Ny Nx).
  intros L. apply (compare_fkey x y Nx Ny) in L. congruence.
Qed.

Lemma ltb_leb (x y : float) : (x <? y) = true -> (x <=? y) = true.
Proof.
  intros H. destruct (ltb_not_nan _ _ H) as [Nx Ny].
  apply (compare_fkey x y Nx Ny) in H. apply (compare_fkey x y Nx Ny).
  apply lt3_asym. exact H.
Qed.

Lemma leb_ltb_false (x y : float) : (y <=? x) = true -> (x <? y) = false.
Proof.
  intros H. destruct (leb_not_nan _ _ H) as [Ny Nx].
  apply not_true_is_false. intros L.
  apply (compare_fkey x y Nx Ny) in L. apply (compare_fkey y x Ny Nx) in H. tauto.
Qed.

(** * Sorting by a key, highest first *)

Section SortByKey.
Context {A : Type}.
Variable k : A -> float.
Variable comparefn : A -> A -> float.
Hypothesis comparefn_key : forall a b, comparefn a b = k b - k a.

Lemma SortCompare_positive (x y : A) :
  (0 <? ArrayPrototype.SortCompare comparefn x y) = (0 <? comparefn x y).
Proof.
  unfold ArrayPrototype.SortCompare. cbv zeta.
  destruct (is_nan (comparefn x y)) eqn:E; [| reflexivity].
  rewrite (is_nan_eq _ E). reflexivity.
Qed.

Lemma SortCompare_negative (x y : A) :
  (ArrayPrototype.SortCompare comparefn x y <? 0) = (comparefn x y <? 0).
Proof.
  unfold ArrayPrototype.SortCompare. cbv zeta.
  destruct (is_nan (comparefn x y)) eqn:E; [| reflexivity].
  rewrite (is_nan_eq _ E). reflexivity.
Qed.

(** [x] is to follow [y] exactly when its key is the lower one. *)
Lemma follows_lower (x y : A) :
  is_nan (k x) = false -> is_nan (k y) = false ->
  (0 <? ArrayPrototype.SortCompare comparefn x y) = (k x <? k y).
Proof.
  intros Nx Ny. rewrite SortCompare_positive, comparefn_key. apply sub_is_positive; assumption.
Qed.

Lemma insert_Permutation (x : A) (l : list A) :
  ArrayPrototype.insert comparefn x l ≡ₚ x :: l.
Proof.
  induction l as [| y l IH]; cbn [ArrayPrototype.insert]; [reflexivity |].
  destruct (0 <? ArrayPrototype.SortCompare comparefn x y); [| reflexivity].
  rewrite IH. apply Permutation_swap.
Qed.

Lemma sort_Permutation (l : list A) : ArrayPrototype.sort comparefn l ≡ₚ l.
Proof.
  induction l as [| x l IH]; [reflexivity |].
  unfold ArrayPrototype.sort. cbn [foldr]. rewrite insert_Permutation.
  apply Permutation_cons; [reflexivity | exact IH].
Qed.

Lemma insert_descending (x : A) (l : list A) :
  is_nan (k x) = false -> Forall (fun a => is_nan (k a) = false) l ->
  descending k l -> descending k (ArrayPrototype.insert comparefn x l).
Proof.
  intros Nx Nl Hl. unfold descending in *.
  induction l as [| y l IH]; cbn [ArrayPrototype.insert].
  - repeat constructor.
  - apply Forall_cons in Nl as [Ny Nl].
    apply StronglySorted_inv in Hl as [Hl Hy].
    rewrite (follows_lower x y Nx Ny).
    destruct (k x <? k y) eqn:E.
    + constructor; [apply IH; assumption |].
      rewrite insert_Permutation. constructor; [apply ltb_leb; exact E | exact Hy].
    + pose proof (ltb_false_leb _ _ Nx Ny E) as Hxy.
      constructor; [constructor; assumption |].
      constructor; [exact Hxy |].
      eapply Forall_impl; [exact Hy |]. cbn. intros z Hz.
      eapply leb_trans; eassumption.
Qed.

Lemma sort_descending (l : list A) :
  Forall (fun a => is_nan (k a) = false) l ->
  descending k (ArrayPrototype.sort comparefn l).
Proof.
  induction l as [| x l IH]; intros Nl.
  - constructor.
  - apply Forall_cons in Nl as [Nx Nl].
    unfold ArrayPrototype.sort. cbn [foldr]. apply insert_descending; [exact Nx | | apply IH; exact Nl].
    fold (ArrayPrototype.sort comparefn l). rewrite sort_Permutation. exact Nl.
Qed.

(** A list that is in order already is left as it is. *)
Lemma sort_descending_id (l : list A) :
  Forall (fun a => is_nan (k a) = false) l ->
  descending k l -> ArrayPrototype.sort comparefn l = l.
Proof.
  unfold descending. induction l as [| x l IH]; intros Nl Hl; [reflexivity |].
  apply Forall_cons in Nl as [Nx Nl].
  apply StronglySorted_inv in Hl as [Hl Hx].
  unfold ArrayPrototype.sort. cbn [foldr]. fold (ArrayPrototype.sort comparefn l).
  rewrite (IH Nl Hl).
  destruct l as [| y l']; [reflexivity |].
  cbn [ArrayPrototype.insert].
  apply Forall_cons in Nl as [Ny _]. apply Forall_cons in Hx as [Hxy _].
  rewrite (follows_lower x y Nx Ny), (leb_ltb_false _ _ Hxy). reflexivity.
Qed.

(** The elements of one key keep their order. *)
Lemma insert_stable (v : float) (x : A) (l : list A) :
  List.filter (fun a => k a =? v) (ArrayPrototype.insert comparefn x l)
  = List.filter (fun a => k a =? v) (x :: l).
Proof.
  induction l as [| y l IH]; cbn [ArrayPrototype.insert]; [reflexivity |].
  destruct (0 <? ArrayPrototype.SortCompare comparefn x y) eqn:E; [| reflexivity].
  cbn [List.filter] in *. rewrite IH.
  destruct (k x =? v) eqn:Ex; [| reflexivity].
  destruct (k y =? v) eqn:Ey; [| reflexivity].
  exfalso.
  destruct (eqb_not_nan _ _ Ex) as [Nx Nv]. destruct (eqb_not_nan _ _ Ey) as [Ny _].
  rewrite (follows_lower x y Nx Ny) in E.
  apply (compare_fkey (k x) (k y) Nx Ny) in E.
  apply (compare_fkey (k x) v Nx Nv) in Ex. apply (compare_fkey (k y) v Ny Nv) in Ey.
  rewrite Ex, Ey in E. exact (lt3_irrefl _ E).
Qed.

Lemma sort_stable (v : float) (l : list A) :
  List.filter (fun a => k a =? v) (ArrayPrototype.sort comparefn l)
  = List.filter (fun a => k a =? v) l.
Proof.
  induction l as [| x l IH]; [reflexivity |].
  unfold ArrayPrototype.sort. cbn [foldr]. fold (ArrayPrototype.sort comparefn l).
  rewrite insert_stable. cbn [List.filter]. rewrite IH. reflexivity.
Qed.

End SortByKey.

(** What the comparator says, read on the keys. *)
Lemma tied_neither (v : float) :
  ((if is_nan v then 0 else v) =? 0) = negb (0 <? v) && negb (v <? 0).
Proof.
  destruct (is_nan v) eqn:E.
  - rewrite (is_nan_eq v E). reflexivity.
  - assert (N0 : is_nan 0 = false) by reflexivity.
    destruct (compare_fkey v 0 E N0) as (H1 & _ & H3).
    destruct (compare_fkey 0 v N0 E) as (H4 & _ & _).
    destruct (0 <? v) eqn:E1.
    + apply not_true_is_false. intros Q. apply H3 in Q.
      apply (lt3_irrefl (fkey v)). rewrite Q at 1. apply H4. reflexivity.
    + destruct (v <? 0) eqn:E2.
      * apply not_true_is_false. intros Q. apply H3 in Q.
        apply (lt3_irrefl (fkey v)). rewrite Q at 2. apply H1. reflexivity.
      * apply H3. apply lt3_total; intros L; [apply H1 in L | apply H4 in L]; discriminate L.
Qed.

Section ByKey.
Context {A : Type}.
Variable k : A -> float.
Variable comparefn : A -> A -> float.
Hypothesis comparefn_key : forall a b, comparefn a b = k b - k a.

Lemma after_lower (a b : A) :
  is_nan (k a) = false -> is_nan (k b) = false ->
  ArrayPrototype.after comparefn a b <-> lt3 (fkey (k a)) (fkey (k b)).
Proof.
  intros Na Nb. unfold ArrayPrototype.after.
  rewrite (follows_lower k comparefn comparefn_key a b Na Nb).
  apply (compare_fkey (k a) (k b) Na Nb).
Qed.

Lemma before_higher (a b : A) :
  is_nan (k a) = false -> is_nan (k b) = false ->
  ArrayPrototype.before comparefn a b <-> lt3 (fkey (k b)) (fkey (k a)).
Proof.
  intros Na Nb. unfold ArrayPrototype.before.
  rewrite SortCompare_negative, comparefn_key, (sub_is_negative _ _ Na Nb).
  apply (compare_fkey (k b) (k a) Nb Na).
Qed.

Lemma tied_same (a b : A) :
  is_nan (k a) = false -> is_nan (k b) = false ->
  ArrayPrototype.tied comparefn a b <-> fkey (k a) = fkey (k b).
Proof.
  intros Na Nb. unfold ArrayPrototype.tied, ArrayPrototype.SortCompare. cbv zeta.
  rewrite tied_neither, comparefn_key.
  rewrite (sub_is_positive _ _ Na Nb), (sub_is_negative _ _ Na Nb).
  destruct (compare_fkey (k a) (k b) Na Nb) as (H1 & _ & _).
  destruct (compare_fkey (k b) (k a) Nb Na) as (H2 & _ & _).
  split.
  - intros H. apply andb_prop in H as [Ha Hb].
    apply negb_true_iff in Ha, Hb.
    apply lt3_total; intros L; [apply H1 in L | apply H2 in L]; congruence.
  - intros E. apply andb_true_intro. split; apply negb_true_iff, not_true_is_false; intros L.
    + apply H1 in L. rewrite E in L. exact (lt3_irrefl _ L).
    + apply H2 in L. rewrite E in L. exact (lt3_irrefl _ L).
Qed.

Lemma key_comparator_consistent (a b c : A) :
  is_nan (k a) = false -> is_nan (k b) = false -> is_nan (k c) = false ->
  ArrayPrototype.consistent_at comparefn a b c.
Proof.
  intros Na Nb Nc. unfold ArrayPrototype.consistent_at.
  rewrite !tied_same, !before_higher, !after_lower by assumption.
  repeat split.
  - intros E. symmetry. exact E.
  - intros E1 E2. congruence.
  - intros L1 L2. eapply lt3_trans; eassumption.
  - intros L1 L2. eapply lt3_trans; eassumption.
Qed.

End ByKey.

Lemma sub_nan_l (x : float) : nan - x = nan.
Proof.
  pose proof (sub_spec nan x) as H. change (Prim2SF nan) with S754_nan in H.
  apply float_of_spec in H. exact H.
Qed.

Lemma sub_nan_r (x : float) : x - nan = nan.
Proof.
  pose proof (sub_spec x nan) as H. change (Prim2SF nan) with S754_nan in H.
  apply float_of_spec in H. rewrite H. destruct (Prim2SF x) as [[] | [] | | [] ? ?]; reflexivity.
Qed.

Lemma leb_refl (x : float) : is_nan x = false -> (x <=? x) = true.
Proof. intros N. apply (compare_fkey x x N N). apply lt3_irrefl. Qed.

Lemma descending_lookup {A : Type} (k : A -> float) (l : list A) (i j : nat) (a b : A) :
  descending k l -> (i < j)%nat -> l !! i = Some a -> l !! j = Some b ->
  (k b <=? k a) = true.
Proof.
  unfold descending. intros H. revert i j.
  induction H as [| x l Hl IH Hx]; intros i j Hij Ha Hb; [discriminate Ha |].
  destruct j as [| j]; [lia |]. cbn in Hb.
  destruct i as [| i]; cbn in Ha.
  - injection Ha as ->. rewrite List.Forall_forall in Hx. apply Hx.
    apply list_elem_of_In. eapply list_elem_of_lookup_2. exact Hb.
  - apply (IH i j); [lia | assumption | assumption].
Qed.

(** * The MCP tool compare_properties *)

Section Compare.
Variable Math_pow : float -> float -> float.

Lemma by_roi_key (a b : MCP.Comparison.t) : MCP.by_roi a b = MCP.roi_of b - MCP.roi_of a.
Proof. reflexivity. Qed.

Lemma roi_of_compare_one (prop : object) :
  MCP.roi_of (MCP.compare_one Math_pow prop) = Metrics.roi (metrics (analyze Math_pow prop)).
Proof. reflexivity. Qed.

Lemma compared_no_nan (properties : list object) :
  Forall (fun prop => is_nan (Metrics.roi (metrics (analyze Math_pow prop))) = false) properties ->
  Forall (fun c => is_nan (MCP.roi_of c) = false) (map (MCP.compare_one Math_pow) properties).
Proof. intros H. apply Forall_map. exact H. Qed.

Lemma comparisons_descending (properties : list object) :
  Forall (fun prop => is_nan (Metrics.roi (metrics (analyze Math_pow prop))) = false) properties ->
  descending MCP.roi_of (MCP.Compared.comparisons (MCP.compareProperties Math_pow properties)).
Proof.
  intros H. cbn [MCP.compareProperties MCP.Compared.comparisons].
  apply (sort_descending MCP.roi_of MCP.by_roi by_roi_key). apply compared_no_nan. exact H.
Qed.

Lemma comparisons_Permutation (properties : list object) :
  MCP.Compared.comparisons (MCP.compareProperties Math_pow properties)
  ≡ₚ map (MCP.compare_one Math_pow) properties.
Proof. apply sort_Permutation. Qed.

Lemma ranking_lookup (properties : list object) (idx : nat) :
  MCP.Compared.ranking (MCP.compareProperties Math_pow properties) !! idx
  = (fun c => MCP.Ranking.make (Z.of_nat idx + 1)
                (get (MCP.Comparison.property c) "address") (MCP.roi_of c)
                (MonthlyNumbers.cashFlow (monthlyNumbers (MCP.Comparison.analysis c))))
    <$> MCP.Compared.comparisons (MCP.compareProperties Math_pow properties) !! idx.
Proof. cbn [MCP.compareProperties MCP.Compared.ranking MCP.Compared.comparisons]. apply list_lookup_imap. Qed.

(** X12.  [compare_properties] ranks every property it is given, once:
    [comparisons] is a rearrangement of the properties, each with the
    report POST /analyze returns for it; line [idx] of [ranking] has rank
    [idx + 1] and the address, roi and cash flow of [comparisons[idx]];
    [bestDeal] is [comparisons[0]], and is missing exactly for an empty
    array. *)
Theorem compareProperties_ranks_every_property (properties : list object) :
  MCP.Compared.comparisons (MCP.compareProperties Math_pow properties)
    ≡ₚ map (MCP.compare_one Math_pow) properties
  /\ length (MCP.Compared.ranking (MCP.compareProperties Math_pow properties))
     = length properties
  /\ (forall idx c,
        MCP.Compared.comparisons (MCP.compareProperties Math_pow properties) !! idx = Some c ->
        MCP.Comparison.analysis c = analyze Math_pow (MCP.Comparison.property c)
        /\ MCP.Compared.ranking (MCP.compareProperties Math_pow properties) !! idx
           = Some {| MCP.Ranking.rank := Z.of_nat idx + 1;
                     MCP.Ranking.address := get (MCP.Comparison.property c) "address";
                     MCP.Ranking.roi := Metrics.roi (metrics (MCP.Comparison.analysis c));
                     MCP.Ranking.cashFlow :=
                       MonthlyNumbers.cashFlow (monthlyNumbers (MCP.Comparison.analysis c)) |})
  /\ MCP.Compared.bestDeal (MCP.compareProperties Math_pow properties)
     = MCP.Compared.comparisons (MCP.compareProperties Math_pow properties) !! 0%nat
  /\ (MCP.Compared.bestDeal (MCP.compareProperties Math_pow properties) = None
      <-> properties = []).
Proof.
  pose proof (comparisons_Permutation properties) as HP.
  set (result := MCP.compareProperties Math_pow properties) in *.
  split; [exact HP |]. split; [| split; [| split]].
  - transitivity (length (MCP.Compared.comparisons result)).
    + unfold result. cbn [MCP.compareProperties MCP.Compared.ranking MCP.Compared.comparisons].
      apply length_imap.
    + rewrite HP. apply length_map.
  - intros idx c Hc. split.
    + assert (Hin : c ∈ map (MCP.compare_one Math_pow) properties)
        by (rewrite <- HP; eapply list_elem_of_lookup_2; exact Hc).
      apply list_elem_of_fmap in Hin as (prop & -> & _). reflexivity.
    + unfold result. rewrite ranking_lookup. fold result. rewrite Hc. reflexivity.
  - unfold result. cbn [MCP.compareProperties MCP.Compared.bestDeal MCP.Compared.comparisons].
    apply head_lookup.
  - assert (Hb : MCP.Compared.bestDeal result = head (MCP.Compared.comparisons result))
      by reflexivity.
    rewrite Hb. split.
    + intros H. apply head_None in H. rewrite H in HP.
      symmetry in HP. apply Permutation_nil_r in HP.
      destruct properties; [reflexivity | discriminate HP].
    + intros ->. reflexivity.
Qed.

(** X13.  When no property's roi is NaN, [ranking] lists the properties by
    descending roi: no line has a greater roi than a line above it. *)
Theorem ranking_is_descending (properties : list object) (i j : nat)
    (above below : MCP.Ranking.t) :
  Forall (fun prop => is_nan (Metrics.roi (metrics (analyze Math_pow prop))) = false) properties ->
  (i <= j)%nat ->
  MCP.Compared.ranking (MCP.compareProperties Math_pow properties) !! i = Some above ->
  MCP.Compared.ranking (MCP.compareProperties Math_pow properties) !! j = Some below ->
  (MCP.Ranking.roi below <=? MCP.Ranking.roi above) = true.
Proof.
  intros Hn Hij Ha Hb. rewrite ranking_lookup in Ha, Hb.
  destruct (MCP.Compared.comparisons (MCP.compareProperties Math_pow properties) !! i)
    as [ca |] eqn:Ea; [| discriminate Ha].
  destruct (MCP.Compared.comparisons (MCP.compareProperties Math_pow properties) !! j)
    as [cb |] eqn:Eb; [| discriminate Hb].
  cbn in Ha, Hb. injection Ha as <-. injection Hb as <-. cbn [MCP.Ranking.roi].
  destruct (Nat.eq_dec i j) as [E | E].
  - subst j. rewrite Eb in Ea. injection Ea as ->. apply leb_refl.
    assert (Hin : ca ∈ map (MCP.compare_one Math_pow) properties)
      by (rewrite <- comparisons_Permutation; eapply list_elem_of_lookup_2; exact Eb).
    pose proof (compared_no_nan properties Hn) as Hc.
    rewrite List.Forall_forall in Hc. apply Hc. apply list_elem_of_In. exact Hin.
  - apply (descending_lookup MCP.roi_of _ i j ca cb (comparisons_descending properties Hn));
      [lia | assumption | assumption].
Qed.

(** X14.  When no property's roi is NaN and there is a property at all,
    [bestDeal] is one of the properties with its report, and none of the
    properties has a greater roi. *)
Theorem bestDeal_has_highest_roi (properties : list object) :
  Forall (fun prop => is_nan (Metrics.roi (metrics (analyze Math_pow prop))) = false) properties ->
  properties <> [] ->
  exists best,
    MCP.Compared.bestDeal (MCP.compareProperties Math_pow properties) = Some best
    /\ best ∈ map (MCP.compare_one Math_pow) properties
    /\ forall prop, prop ∈ properties ->
         (Metrics.roi (metrics (analyze Math_pow prop)) <=? MCP.roi_of best) = true.
Proof.
  intros Hn Hne.
  pose proof (comparisons_Permutation properties) as HP.
  pose proof (comparisons_descending properties Hn) as HD.
  assert (Hb : MCP.Compared.bestDeal (MCP.compareProperties Math_pow properties)
               = head (MCP.Compared.comparisons (MCP.compareProperties Math_pow properties)))
    by reflexivity.
  rewrite Hb. clear Hb.
  destruct (MCP.Compared.comparisons (MCP.compareProperties Math_pow properties))
    as [| best rest] eqn:E.
  - symmetry in HP. apply Permutation_nil_r in HP.
    destruct properties; [congruence | discriminate HP].
  - exists best. split; [reflexivity |].
    assert (Hbest : best ∈ map (MCP.compare_one Math_pow) properties)
      by (rewrite <- HP; apply list_elem_of_here).
    split; [exact Hbest |].
    intros prop Hprop. rewrite <- roi_of_compare_one.
    assert (Hin : MCP.compare_one Math_pow prop ∈ best :: rest)
      by (rewrite HP; apply list_elem_of_fmap; eauto).
    apply elem_of_cons in Hin as [-> | Hin].
    + apply leb_refl. pose proof (compared_no_nan properties Hn) as Hc.
      rewrite List.Forall_forall in Hc. apply Hc. apply list_elem_of_In. exact Hbest.
    + unfold descending in HD. apply StronglySorted_inv in HD as [_ HD].
      rewrite List.Forall_forall in HD. apply HD. apply list_elem_of_In. exact Hin.
Qed.

(** X15.  When no property's roi is NaN, which is when ECMA-262 fixes the
    order, properties of equal roi are ranked in the order they were
    given: for every roi, the comparisons that have it are those of the
    input, in the input's order. *)
Theorem equal_roi_keeps_input_order (properties : list object) (v : float) :
  Forall (fun prop => is_nan (Metrics.roi (metrics (analyze Math_pow prop))) = false) properties ->
  List.filter (fun c => MCP.roi_of c =? v)
    (MCP.Compared.comparisons (MCP.compareProperties Math_pow properties))
  = List.filter (fun c => MCP.roi_of c =? v) (map (MCP.compare_one Math_pow) properties).
Proof.
  intros _. apply (sort_stable MCP.roi_of MCP.by_roi by_roi_key).
Qed.

(** X16.  When no property's roi is NaN and the properties are given by
    descending roi already, they are ranked as given. *)
Theorem descending_input_is_kept (properties : list object) :
  Forall (fun prop => is_nan (Metrics.roi (metrics (analyze Math_pow prop))) = false) properties ->
  descending (fun prop => Metrics.roi (metrics (analyze Math_pow prop))) properties ->
  MCP.Compared.comparisons (MCP.compareProperties Math_pow properties)
  = map (MCP.compare_one Math_pow) properties
  /\ map MCP.Ranking.address (MCP.Compared.ranking (MCP.compareProperties Math_pow properties))
     = map (fun prop => get prop "address") properties.
Proof.
  intros Hn Hd.
  assert (E : MCP.Compared.comparisons (MCP.compareProperties Math_pow properties)
              = map (MCP.compare_one Math_pow) properties).
  { apply (sort_descending_id MCP.roi_of MCP.by_roi by_roi_key).
    - apply compared_no_nan. exact Hn.
    - unfold descending in *. clear Hn.
      induction Hd as [| prop l Hl IH Hp]; cbn [map]; constructor.
      + exact IH.
      + apply Forall_map. exact Hp. }
  split; [exact E |].
  apply list_eq. intros idx. rewrite !list_lookup_fmap, ranking_lookup, E, list_lookup_fmap.
  destruct (properties !! idx); reflexivity.
Qed.

(** X17.  On comparisons whose roi is not NaN the comparator of the
    ranking is a consistent comparator in the sense of ECMA-262, the
    comparison coming before, tied with or after another as its roi is
    greater than, equal to or less than the other's. *)
Theorem by_roi_is_consistent (a b c : MCP.Comparison.t) :
  is_nan (MCP.roi_of a) = false -> is_nan (MCP.roi_of b) = false ->
  is_nan (MCP.roi_of c) = false ->
  ArrayPrototype.consistent_at MCP.by_roi a b c
  /\ (ArrayPrototype.before MCP.by_roi a b <-> (MCP.roi_of b <? MCP.roi_of a) = true)
  /\ (ArrayPrototype.tied MCP.by_roi a b <-> (MCP.roi_of a =? MCP.roi_of b) = true)
  /\ (ArrayPrototype.after MCP.by_roi a b <-> (MCP.roi_of a <? MCP.roi_of b) = true).
Proof.
  intros Na Nb Nc.
  split; [apply (key_comparator_consistent MCP.roi_of MCP.by_roi by_roi_key); assumption |].
  rewrite (before_higher MCP.roi_of MCP.by_roi by_roi_key a b Na Nb).
  rewrite (tied_same MCP.roi_of MCP.by_roi by_roi_key a b Na Nb).
  rewrite (after_lower MCP.roi_of MCP.by_roi by_roi_key a b Na Nb).
  destruct (compare_fkey (MCP.roi_of a) (MCP.roi_of b) Na Nb) as (H1 & _ & H3).
  destruct (compare_fkey (MCP.roi_of b) (MCP.roi_of a) Nb Na) as (H2 & _ & _).
  tauto.
Qed.

(** X18.  A comparison whose roi is NaN is tied with every other, also
    with two that are not tied with each other: with it the comparator
    is not consistent, and ECMA-262 leaves the order of the ranking to
    the implementation. *)
Theorem nan_roi_is_tied_with_all (a b n : MCP.Comparison.t) :
  is_nan (MCP.roi_of n) = true ->
  (MCP.roi_of a <? MCP.roi_of b) = true ->
  ArrayPrototype.tied MCP.by_roi a n
  /\ ArrayPrototype.tied MCP.by_roi n b
  /\ ~ ArrayPrototype.tied MCP.by_roi a b
  /\ ~ ArrayPrototype.consistent_at MCP.by_roi a n b.
Proof.
  intros Hn Hab. apply is_nan_eq in Hn.
  assert (T1 : ArrayPrototype.tied MCP.by_roi a n).
  { unfold ArrayPrototype.tied, ArrayPrototype.SortCompare, MCP.by_roi. cbv zeta.
    rewrite Hn, sub_nan_l. reflexivity. }
  assert (T2 : ArrayPrototype.tied MCP.by_roi n b).
  { unfold ArrayPrototype.tied, ArrayPrototype.SortCompare, MCP.by_roi. cbv zeta.
    rewrite Hn, sub_nan_r. reflexivity. }
  assert (T3 : ~ ArrayPrototype.tied MCP.by_roi a b).
  { destruct (ltb_not_nan _ _ Hab) as [Na Nb].
    rewrite (tied_same MCP.roi_of MCP.by_roi by_roi_key a b Na Nb). intros E.
    apply (compare_fkey _ _ Na Nb) in Hab. rewrite E in Hab. exact (lt3_irrefl _ Hab). }
  repeat split; try assumption.
  intros (_ & _ & Ht & _). apply T3. apply Ht; assumption.
Qed.

End Compare.

(** * The theorems at the sample properties *)

Lemma ranking_is_descending_witness :
  Forall (fun prop => is_nan (Metrics.roi (metrics (analyze pow_integral prop))) = false)
    portfolio
  /\ (0 <= 3)%nat
  /\ MCP.Compared.ranking (MCP.compareProperties pow_integral portfolio) !! 0%nat
     = Some (MCP.Ranking.make 1 (VString "123 Test St") 81.670000000000002 4083.5809364469242)
  /\ MCP.Compared.ranking (MCP.compareProperties pow_integral portfolio) !! 3%nat
     = Some (MCP.Ranking.make 4 (VString "123 Test St") (-388.73000000000002)
               (-19436.419063553076))
  /\ (-388.73000000000002 <=? 81.670000000000002) = true.
Proof.
  assert (Hn : Forall (fun prop => is_nan (Metrics.roi (metrics (analyze pow_integral prop)))
                                   = false) portfolio)
    by (repeat (apply List.Forall_cons; [vm_compute; reflexivity |]); apply List.Forall_nil).
  assert (Ha : MCP.Compared.ranking (MCP.compareProperties pow_integral portfolio) !! 0%nat
     = Some (MCP.Ranking.make 1 (VString "123 Test St") 81.670000000000002 4083.5809364469242))
    by (vm_compute; reflexivity).
  assert (Hb : MCP.Compared.ranking (MCP.compareProperties pow_integral portfolio) !! 3%nat
     = Some (MCP.Ranking.make 4 (VString "123 Test St") (-388.73000000000002)
               (-19436.419063553076)))
    by (vm_compute; reflexivity).
  split; [exact Hn |]. split; [lia |]. split; [exact Ha |]. split; [exact Hb |].
  exact (ranking_is_descending pow_integral portfolio 0 3 _ _ Hn (Nat.le_0_l 3) Ha Hb).
Defined.

Lemma bestDeal_has_highest_roi_witness :
  Forall (fun prop => is_nan (Metrics.roi (metrics (analyze pow_integral prop))) = false)
    portfolio
  /\ portfolio <> []
  /\ exists best,
       MCP.Compared.bestDeal (MCP.compareProperties pow_integral portfolio) = Some best
       /\ best ∈ map (MCP.compare_one pow_integral) portfolio
       /\ forall prop, prop ∈ portfolio ->
            (Metrics.roi (metrics (analyze pow_integral prop)) <=? MCP.roi_of best) = true.
Proof.
  assert (Hn : Forall (fun prop => is_nan (Metrics.roi (metrics (analyze pow_integral prop)))
                                   = false) portfolio)
    by (repeat (apply List.Forall_cons; [vm_compute; reflexivity |]); apply List.Forall_nil).
  assert (Hne : portfolio <> []) by discriminate.
  split; [exact Hn |]. split; [exact Hne |].
  exact (bestDeal_has_highest_roi pow_integral portfolio Hn Hne).
Defined.

Lemma equal_roi_keeps_input_order_witness :
  Forall (fun prop => is_nan (Metrics.roi (metrics (analyze pow_integral prop))) = false)
    portfolio
  /\ List.filter (fun c => MCP.roi_of c =? 81.670000000000002)
       (MCP.Compared.comparisons (MCP.compareProperties pow_integral portfolio))
     = List.filter (fun c => MCP.roi_of c =? 81.670000000000002)
         (map (MCP.compare_one pow_integral) portfolio).
Proof.
  assert (Hn : Forall (fun prop => is_nan (Metrics.roi (metrics (analyze pow_integral prop)))
                                   = false) portfolio)
    by (repeat (apply List.Forall_cons; [vm_compute; reflexivity |]); apply List.Forall_nil).
  split; [exact Hn |].
  exact (equal_roi_keeps_input_order pow_integral portfolio 81.670000000000002 Hn).
Defined.

Lemma descending_input_is_kept_witness :
  Forall (fun prop => is_nan (Metrics.roi (metrics (analyze pow_integral prop))) = false)
    rankedPortfolio
  /\ descending (fun prop => Metrics.roi (metrics (analyze pow_integral prop))) rankedPortfolio
  /\ MCP.Compared.comparisons (MCP.compareProperties pow_integral rankedPortfolio)
     = map (MCP.compare_one pow_integral) rankedPortfolio
  /\ map MCP.Ranking.address
       (MCP.Compared.ranking (MCP.compareProperties pow_integral rankedPortfolio))
     = map (fun prop => get prop "address") rankedPortfolio.
Proof.
  assert (Hn : Forall (fun prop => is_nan (Metrics.roi (metrics (analyze pow_integral prop)))
                                   = false) rankedPortfolio)
    by (repeat (apply List.Forall_cons; [vm_compute; reflexivity |]); apply List.Forall_nil).
  assert (Hd : descending (fun prop => Metrics.roi (metrics (analyze pow_integral prop)))
                 rankedPortfolio).
  { unfold descending, rankedPortfolio.
    repeat (apply SSorted_cons;
            [| repeat (apply List.Forall_cons; [vm_compute; reflexivity |]);
               apply List.Forall_nil]).
    apply SSorted_nil. }
  split; [exact Hn |]. split; [exact Hd |].
  exact (descending_input_is_kept pow_integral rankedPortfolio Hn Hd).
Defined.

Lemma by_roi_is_consistent_witness :
  is_nan (MCP.roi_of oneYearDeal) = false
  /\ is_nan (MCP.roi_of lowPriceDeal) = false
  /\ is_nan (MCP.roi_of highRentDeal) = false
  /\ ArrayPrototype.consistent_at MCP.by_roi oneYearDeal lowPriceDeal highRentDeal
  /\ (ArrayPrototype.before MCP.by_roi oneYearDeal lowPriceDeal
      <-> (MCP.roi_of lowPriceDeal <? MCP.roi_of oneYearDeal) = true)
  /\ (ArrayPrototype.tied MCP.by_roi oneYearDeal lowPriceDeal
      <-> (MCP.roi_of oneYearDeal =? MCP.roi_of lowPriceDeal) = true)
  /\ (ArrayPrototype.after MCP.by_roi oneYearDeal lowPriceDeal
      <-> (MCP.roi_of oneYearDeal <? MCP.roi_of lowPriceDeal) = true).
Proof.
  assert (Na : is_nan (MCP.roi_of oneYearDeal) = false) by (vm_compute; reflexivity).
  assert (Nb : is_nan (MCP.roi_of lowPriceDeal) = false) by (vm_compute; reflexivity).
  assert (Nc : is_nan (MCP.roi_of highRentDeal) = false) by (vm_compute; reflexivity).
  split; [exact Na |]. split; [exact Nb |]. split; [exact Nc |].
  exact (by_roi_is_consistent oneYearDeal lowPriceDeal highRentDeal Na Nb Nc).
Defined.

Lemma nan_roi_is_tied_with_all_witness :
  is_nan (MCP.roi_of infinitePriceDeal) = true
  /\ (MCP.roi_of oneYearDeal <? MCP.roi_of highRentDeal) = true
  /\ ArrayPrototype.tied MCP.by_roi oneYearDeal infinitePriceDeal
  /\ ArrayPrototype.tied MCP.by_roi infinitePriceDeal highRentDeal
  /\ ~ ArrayPrototype.tied MCP.by_roi oneYearDeal highRentDeal
  /\ ~ ArrayPrototype.consistent_at MCP.by_roi oneYearDeal infinitePriceDeal highRentDeal.
Proof.
  assert (Hn : is_nan (MCP.roi_of infinitePriceDeal) = true) by (vm_compute; reflexivity).
  assert (Hab : (MCP.roi_of oneYearDeal <? MCP.roi_of highRentDeal) = true)
    by (vm_compute; reflexivity).
  split; [exact Hn |]. split; [exact Hab |].
  exact (nan_roi_is_tied_with_all oneYearDeal highRentDeal infinitePriceDeal Hn Hab).
Defined.

Lemma exact_amortised_payment_repays_loan_witness :
  (0 < interestRate testCalculatorQ)%Q
  /\ (loanTerm testCalculatorQ == inject_Z 30)%Q
  /\ (balance_after (getLoanAmount (H := Q_arith pow_exact) testCalculatorQ)
        (interestRate testCalculatorQ / 100 / 12)
        (getMonthlyMortgage (H := Q_arith pow_exact) testCalculatorQ)
        (Pos.to_nat (30 * 12)) == 0)%Q.
Proof.
  assert (H2 : (0 < interestRate testCalculatorQ)%Q) by reflexivity.
  assert (H3 : (loanTerm testCalculatorQ == inject_Z 30)%Q) by reflexivity.
  split; [exact H2 |]. split; [exact H3 |].
  apply (exact_amortised_payment_repays_loan testCalculatorQ 30 H2 H3).
Defined.
